(** * export_pdf.js: the static asset server and the export orchestrator

    A shallow embedding of [src/export_pdf.js].  JavaScript strings are
    sequences of UTF-16 code units; the built-ins the script calls
    ([String.prototype.split], [decodeURIComponent], [path.join],
    [path.extname], [String.prototype.toLowerCase], [fs.readFile]) are
    modelled after ECMA-262 and the POSIX flavour of Node's [path] module;
    everything the script only observes (the file system, the browser, the
    page) is an explicit parameter. *)

From Stdlib Require Import List Arith NArith Lia Bool String Ascii.
From Stdlib Require Strings.Byte DecimalString.
Import ListNotations.
Local Open Scope N_scope.

(** ** JavaScript strings *)

Module Js.

(** A string value: its UTF-16 code units, in order. *)
Definition jsstring := list N.

(** The code units of an ASCII literal. *)
Definition str (s : string) : jsstring :=
  map N_of_ascii (list_ascii_of_string s).

(** [a === b] on strings. *)
Fixpoint eqb (a b : jsstring) : bool :=
  match a, b with
  | [], [] => true
  | x :: a', y :: b' => (x =? y) && eqb a' b'
  | _, _ => false
  end.

(** Truthiness of a string: every string but the empty one. *)
Definition truthy (s : jsstring) : bool :=
  match s with [] => false | _ :: _ => true end.

(** [s.substring(0, n)]. *)
Definition substring0 (n : nat) (s : jsstring) : jsstring := firstn n s.

(** [s.split(sep)] for a separator of one code unit: the pieces between the
    separators, never an empty array. *)
Fixpoint split (sep : N) (s : jsstring) : list jsstring :=
  match s with
  | [] => [[]]
  | c :: t =>
      if c =? sep then [] :: split sep t
      else match split sep t with
           | seg :: rest => (c :: seg) :: rest
           | [] => [[c]]
           end
  end.

(** [pieces.join(sep)]. *)
Fixpoint join (sep : jsstring) (pieces : list jsstring) : jsstring :=
  match pieces with
  | [] => []
  | [p] => p
  | p :: rest => p ++ sep ++ join sep rest
  end.

(** [String(n)] for a non-negative integer. *)
Definition ofNum (n : N) : jsstring :=
  str (DecimalString.NilZero.string_of_uint (N.to_uint n)).

(** *** String.prototype.toLowerCase

    On a string of ASCII code units the result is the code-unit-wise map of
    [A-Z] to [a-z].  For a string with a code unit outside ASCII the result
    is given by the Unicode case tables, which the script does not carry:
    they are the parameter [unicodeLower]. *)
Definition isAscii (c : N) : bool := c <? 128.

Definition asciiLower (c : N) : N :=
  if (65 <=? c) && (c <=? 90) then c + 32 else c.

Definition toLowerCase (unicodeLower : jsstring -> jsstring) (s : jsstring)
  : jsstring :=
  if forallb isAscii s then map asciiLower s else unicodeLower s.

(** *** decodeURIComponent

    [None] stands for the [URIError] the built-in throws. *)
Definition hexval (c : N) : option N :=
  if (48 <=? c) && (c <=? 57) then Some (c - 48)
  else if (65 <=? c) && (c <=? 70) then Some (c - 55)
  else if (97 <=? c) && (c <=? 102) then Some (c - 87)
  else None.

Definition hexByte (h l : N) : option N :=
  match hexval h, hexval l with
  | Some a, Some b => Some (16 * a + b)
  | _, _ => None
  end.

(** The low six bits of a continuation octet written [%XY]. *)
Definition continuation (p h l : N) : option N :=
  if p =? 37 then
    match hexByte h l with
    | Some b => if N.land b 192 =? 128 then Some (N.land b 63) else None
    | None => None
    end
  else None.

(** The number of leading one bits of an octet (5 stands for five or more). *)
Definition leadingOnes (b : N) : nat :=
  if b <? 128 then 0%nat
  else if b <? 192 then 1%nat
  else if b <? 224 then 2%nat
  else if b <? 240 then 3%nat
  else if b <? 248 then 4%nat
  else 5%nat.

(** The UTF-16 encoding of a code point. *)
Definition utf16 (cp : N) : jsstring :=
  if cp <? 65536 then [cp]
  else [55296 + (cp - 65536) / 1024; 56320 + (cp - 65536) mod 1024].

(** A code point decoded from [n] octets is accepted when it is not an
    overlong form, not a surrogate and not above U+10FFFF. *)
Definition validCodePoint (n : nat) (cp : N) : bool :=
  match n with
  | 2%nat => 128 <=? cp
  | 3%nat => (2048 <=? cp) && negb ((55296 <=? cp) && (cp <=? 57343))
  | 4%nat => (65536 <=? cp) && (cp <=? 1114111)
  | _ => false
  end.

Definition emit (n : nat) (cp : N) (rest : option jsstring) : option jsstring :=
  if validCodePoint n cp then option_map (app (utf16 cp)) rest else None.

Fixpoint decodeURIComponent (s : jsstring) : option jsstring :=
  match s with
  | [] => Some []
  | c :: t =>
      if negb (c =? 37) then option_map (cons c) (decodeURIComponent t)
      else
        match t with
        | h :: l :: r =>
            match hexByte h l with
            | None => None
            | Some b =>
                match leadingOnes b with
                | 0%nat => option_map (cons b) (decodeURIComponent r)
                | 2%nat =>
                    match r with
                    | p1 :: h1 :: l1 :: r1 =>
                        match continuation p1 h1 l1 with
                        | Some x1 =>
                            emit 2 (N.lor (N.shiftl (N.land b 31) 6) x1)
                                 (decodeURIComponent r1)
                        | None => None
                        end
                    | _ => None
                    end
                | 3%nat =>
                    match r with
                    | p1 :: h1 :: l1 :: p2 :: h2 :: l2 :: r2 =>
                        match continuation p1 h1 l1, continuation p2 h2 l2 with
                        | Some x1, Some x2 =>
                            emit 3 (N.lor (N.shiftl (N.land b 15) 12)
                                      (N.lor (N.shiftl x1 6) x2))
                                 (decodeURIComponent r2)
                        | _, _ => None
                        end
                    | _ => None
                    end
                | 4%nat =>
                    match r with
                    | p1 :: h1 :: l1 :: p2 :: h2 :: l2 :: p3 :: h3 :: l3 :: r3 =>
                        match continuation p1 h1 l1, continuation p2 h2 l2,
                              continuation p3 h3 l3 with
                        | Some x1, Some x2, Some x3 =>
                            emit 4 (N.lor (N.shiftl (N.land b 7) 18)
                                      (N.lor (N.shiftl x1 12)
                                         (N.lor (N.shiftl x2 6) x3)))
                                 (decodeURIComponent r3)
                        | _, _, _ => None
                        end
                    | _ => None
                    end
                | _ => None
                end
            end
        | _ => None
        end
  end.

End Js.

Import Js.

(** ** Node's [path] module (POSIX flavour) *)

Module Path.

Definition SLASH : N := 47.
Definition DOT : N := 46.

(** One loop iteration of [normalizeString] at a separator, on the segments
    kept so far (most recent first).  An empty segment ([lastSlash === i - 1])
    and [.] ([dots === 1]) are skipped; [..] ([dots === 2]) drops the last
    kept segment unless there is none or it is itself [..], in which case it
    is kept only when [allowAboveRoot]; any other segment is appended. *)
Definition normalizeStep (allowAboveRoot : bool) (kept : list jsstring)
  (seg : jsstring) : list jsstring :=
  if eqb seg [] || eqb seg [DOT] then kept
  else if eqb seg [DOT; DOT] then
    match kept with
    | last :: before =>
        if eqb last [DOT; DOT]
        then (if allowAboveRoot then seg :: kept else kept)
        else before
    | [] => if allowAboveRoot then [seg] else []
    end
  else seg :: kept.

Definition normalizeString (path : jsstring) (allowAboveRoot : bool) : jsstring :=
  join [SLASH]
       (rev (fold_left (normalizeStep allowAboveRoot) (split SLASH path) [])).

Definition startsWithSlash (path : jsstring) : bool :=
  match path with c :: _ => c =? SLASH | [] => false end.

Definition endsWithSlash (path : jsstring) : bool :=
  startsWithSlash (rev path).

(** [path.normalize(path)]. *)
Definition normalize (path : jsstring) : jsstring :=
  match path with
  | [] => [DOT]
  | _ :: _ =>
      let isAbsolute := startsWithSlash path in
      let trailingSeparator := endsWithSlash path in
      let p := normalizeString path (negb isAbsolute) in
      match p with
      | [] =>
          if isAbsolute then [SLASH]
          else if trailingSeparator then [DOT; SLASH] else [DOT]
      | _ :: _ =>
          let p' := if trailingSeparator then p ++ [SLASH] else p in
          if isAbsolute then SLASH :: p' else p'
      end
  end.

(** The loop of [path.join]: [joined] stays [undefined] ([None]) until the
    first non-empty argument. *)
Definition joinStep (joined : option jsstring) (arg : jsstring)
  : option jsstring :=
  match arg with
  | [] => joined
  | _ :: _ =>
      match joined with
      | None => Some arg
      | Some j => Some (j ++ [SLASH] ++ arg)
      end
  end.

(** [path.join(...args)]. *)
Definition join (args : list jsstring) : jsstring :=
  match fold_left joinStep args None with
  | None => [DOT]
  | Some joined => normalize joined
  end.

(** The loop of [path.resolve], from the last argument to the first and then
    the working directory, until an absolute path has been prepended. *)
Fixpoint resolveLoop (cwd : jsstring) (revArgs : list jsstring)
  (resolvedPath : jsstring) : jsstring * bool :=
  match revArgs with
  | [] =>
      match cwd with
      | [] => (resolvedPath, false)
      | _ :: _ => (cwd ++ [SLASH] ++ resolvedPath, startsWithSlash cwd)
      end
  | [] :: more => resolveLoop cwd more resolvedPath
  | (c :: p) :: more =>
      let resolvedPath' := (c :: p) ++ [SLASH] ++ resolvedPath in
      if startsWithSlash (c :: p) then (resolvedPath', true)
      else resolveLoop cwd more resolvedPath'
  end.

(** [path.resolve(...args)] in a process whose working directory is [cwd]. *)
Definition resolve (cwd : jsstring) (args : list jsstring) : jsstring :=
  let '(resolvedPath, resolvedAbsolute) := resolveLoop cwd (rev args) [] in
  let p := normalizeString resolvedPath (negb resolvedAbsolute) in
  if resolvedAbsolute then SLASH :: p
  else match p with [] => [DOT] | _ :: _ => p end.

(** [path.extname(path)].  Trailing separators are ignored and the last
    segment is the base name.  The extension runs from the last dot of the
    base name to its end; it is empty when the base name has no dot, when
    the last dot is its first character, and when the base name is [..]. *)
Fixpoint dropSlashes (revPath : jsstring) : jsstring :=
  match revPath with
  | c :: t => if c =? SLASH then dropSlashes t else revPath
  | [] => []
  end.

(** The base name, reversed. *)
Fixpoint revBase (revPath : jsstring) : jsstring :=
  match revPath with
  | c :: t => if c =? SLASH then [] else c :: revBase t
  | [] => []
  end.

(** Splits a reversed base name at its last dot: the reversed text after the
    dot and the reversed text before it, when there is a dot. *)
Fixpoint atLastDot (revName : jsstring) : option (jsstring * jsstring) :=
  match revName with
  | [] => None
  | c :: t =>
      if c =? DOT then Some ([], t)
      else match atLastDot t with
           | Some (after, before) => Some (c :: after, before)
           | None => None
           end
  end.

Definition extname (path : jsstring) : jsstring :=
  match atLastDot (revBase (dropSlashes (rev path))) with
  | None => []
  | Some (_, []) => []
  | Some (revAfter, revBefore) =>
      if eqb revAfter [] && eqb revBefore [DOT] then []
      else DOT :: rev revAfter
  end.

End Path.

(** ** The file system, as [fs.readFile] sees it *)

Module Fs.

(** A disk: the contents [fs.readFile] delivers for a path, [None] when the
    read fails (no such file, a directory, no permission, ...). *)
Definition disk := jsstring -> option (list Byte.byte).

Inductive readResult :=
  | InvalidPath                        (* thrown by the call itself *)
  | ReadError                          (* callback(err) *)
  | ReadData (data : list Byte.byte).  (* callback(null, data) *)

(** [fs.readFile(path, callback)].  Node validates the path before it
    touches the disk: a path holding a NUL code unit makes the call itself
    throw ([ERR_INVALID_ARG_VALUE]); otherwise the callback receives the
    error or the data. *)
Definition readFile (d : disk) (path : jsstring) : readResult :=
  if existsb (N.eqb 0) path then InvalidPath
  else match d path with
       | Some data => ReadData data
       | None => ReadError
       end.

End Fs.

(** ** The static asset server *)

(** Exceptions that escape the request listener. *)
Inductive exn := URIError | InvalidArgValue.

Record response := {
  status : N;
  headers : list (jsstring * jsstring);
  body : list Byte.byte
}.

(** What one request ends in: a response, or an exception thrown out of the
    listener before any response was written. *)
Inductive handled :=
| Responded (r : response)
| Uncaught (e : exn).

Definition MIME : list (jsstring * jsstring) :=
  [ (str ".html", str "text/html");
    (str ".css",  str "text/css");
    (str ".js",   str "application/javascript");
    (str ".png",  str "image/png");
    (str ".svg",  str "image/svg+xml") ].

(** [o[k]]: the value of the own property [k], [None] for [undefined].
    Properties inherited from [Object.prototype] are left out: the keys
    looked up in [MIME] come from [path.extname], which returns the empty
    string or a string that starts with a dot. *)
Fixpoint getProp (o : list (jsstring * jsstring)) (k : jsstring)
  : option jsstring :=
  match o with
  | [] => None
  | (k', v) :: o' => if eqb k' k then Some v else getProp o' k
  end.

(** [v || d] where [v] is a string or [undefined]. *)
Definition orElse (v : option jsstring) (d : jsstring) : jsstring :=
  match v with
  | Some s => if truthy s then s else d
  | None => d
  end.

Section Server.

(** The Unicode case tables behind [toLowerCase] and the disk. *)
Variable unicodeLower : jsstring -> jsstring.
Variable d : Fs.disk.

(** [folder], the first argument of [startServer]. *)
Variable folder : jsstring.

(** [path.join(folder, urlPath === '/' ? 'booklet.html' : urlPath)]. *)
Definition filePathOf (urlPath : jsstring) : jsstring :=
  Path.join [folder; if eqb urlPath (str "/") then str "booklet.html" else urlPath].

(** [MIME[path.extname(filePath).toLowerCase()] || 'application/octet-stream']. *)
Definition mimeOf (filePath : jsstring) : jsstring :=
  orElse (getProp MIME (toLowerCase unicodeLower (Path.extname filePath)))
         (str "application/octet-stream").

(** The request listener given to [http.createServer], applied to
    [req.url]. *)
Definition requestListener (url : jsstring) : handled :=
  match decodeURIComponent (hd [] (split 63 url)) with
  | None => Uncaught URIError
  | Some urlPath =>
      let filePath := filePathOf urlPath in
      match Fs.readFile d filePath with
      | Fs.InvalidPath => Uncaught InvalidArgValue
      | Fs.ReadError =>
          Responded {| status := 404; headers := [];
                       body := list_byte_of_string "Not found" |}
      | Fs.ReadData data =>
          let mime := mimeOf filePath in
          Responded {| status := 200;
                       headers := [(str "Content-Type", mime)];
                       body := data |}
      end
  end.

End Server.

(** [startServer(folder, port)] resolves to the server once it listens (see
    [startServer] below); a running server answers each request with the
    listener above, rooted at the folder it was started with. *)
Record Server := { root : jsstring; boundPort : N }.

Definition serve (unicodeLower : jsstring -> jsstring) (d : Fs.disk)
  (server : Server) (url : jsstring) : handled :=
  requestListener unicodeLower d (root server) url.

(** ** The page, as the script observes it *)

Module Dom.

(** What the two in-page callbacks read from [document]. *)
Record Document := {
  title : jsstring;
  exhibitBoxes : N;            (* querySelectorAll('.exhibit-box').length *)
  pages : N;                   (* querySelectorAll('.page').length *)
  loading : option jsstring;   (* textContent of #loading, if the element exists *)
  status : option jsstring;    (* textContent of #status, if the element exists *)
  body : option jsstring       (* innerHTML of document.body; [None]: body is null *)
}.

End Dom.

Record Diagnostics := {
  title : jsstring;
  cardCount : N;
  pageCount : N;
  loadingText : jsstring;
  statusText : jsstring;
  bodySnippet : jsstring
}.

(** The callback of [page.evaluate] (lines 89-98), run against the document.
    [None] stands for the [TypeError] of reading [innerHTML] of [null]. *)
Definition diagnosticsOf (doc : Dom.Document) : option Diagnostics :=
  match Dom.body doc with
  | None => None
  | Some innerHTML =>
      Some {| title := Dom.title doc;
              cardCount := Dom.exhibitBoxes doc;
              pageCount := Dom.pages doc;
              loadingText := orElse (Dom.loading doc) (str "(no #loading element)");
              statusText := orElse (Dom.status doc) (str "(no #status element)");
              bodySnippet := substring0 400 innerHTML |}
  end.

(** The predicate of [page.waitForFunction] (line 81). *)
Definition cardsRendered (doc : Dom.Document) : bool :=
  0 <? Dom.exhibitBoxes doc.

(** [s.replace(/\s+/g, ' ')]: every maximal run of white space becomes one
    space. *)
Definition isSpace (c : N) : bool :=
  ((9 <=? c) && (c <=? 13)) || (c =? 32) || (c =? 160) || (c =? 5760)
  || ((8192 <=? c) && (c <=? 8202)) || (c =? 8232) || (c =? 8233)
  || (c =? 8239) || (c =? 8287) || (c =? 12288) || (c =? 65279).

Fixpoint collapseSpaces (inRun : bool) (s : jsstring) : jsstring :=
  match s with
  | [] => []
  | c :: t =>
      if isSpace c
      then (if inRun then collapseSpaces true t else 32 :: collapseSpaces true t)
      else c :: collapseSpaces false t
  end.

(** ** The orchestrator's world and its effects *)

Record error := { message : jsstring }.

(** Events a page emits to the listeners of lines 55-65. *)
Inductive pageEvent :=
| Console (type text : jsstring)
| PageError (err : error)
| RequestFailed (url : jsstring) (errorText : option jsstring).

(** The awaited calls of the script, in program order. *)
Inductive step :=
| AtListen | AtLaunch | AtNewPage | AtSetViewport | AtGoto | AtWait
| AtEvaluate | AtSettle | AtPdf | AtClose.

(** Everything outside the script that one run depends on. *)
Record World := {
  __dirname : jsstring;
  cwd : jsstring;
  (** the error an awaited call rejects with for a reason of its own *)
  rejects : step -> option error;
  (** the page events delivered while the call is awaited *)
  emits : step -> list pageEvent;
  (** the document at the k-th poll of [waitForFunction] *)
  documentAtPoll : nat -> Dom.Document;
  (** the document when the diagnostics are extracted *)
  documentAtEvaluate : Dom.Document;
  (** the rejection of [page.evaluate] when its callback throws *)
  evaluateError : error
}.

(** An argument of [console.log] / [console.error]. *)
Inductive arg := Str (s : jsstring) | Num (n : N) | Undefined.

Record pdfOptions := {
  path : jsstring;
  format : jsstring;
  printBackground : bool;
  margin : N * N * N * N;
  preferCSSPageSize : bool
}.

Inductive effect :=
| ConsoleLog (args : list arg)
| ConsoleError (args : list arg)
| Listen (folder : jsstring) (port : N) (host : jsstring)
| Launch (headless : bool) (args : list jsstring)
| NewPage
| SetViewport (width height : N)
| Goto (url waitUntil : jsstring) (timeout : N)
| WaitForFunction (timeout polling : N)
| Evaluate
| Sleep (ms : N)
| Pdf (options : pdfOptions)
| FileWritten (file : jsstring)
| BrowserClose
| ServerClose.

(** How a piece of the script ends: normally, by a pending exception, or
    by [process.exit]. *)
Inductive completion (A : Type) :=
| Normal (a : A)
| Throw (e : error)
| Exit (code : N).
Arguments Normal {A} a.
Arguments Throw {A} e.
Arguments Exit {A} code.

(** A computation: the effects it performed, in order, and how it ended. *)
Definition M (A : Type) : Type := list effect * completion A.

Definition ret {A} (a : A) : M A := ([], Normal a).

Definition bind {A B} (m : M A) (k : A -> M B) : M B :=
  match m with
  | (t, Normal a) => let (t', c) := k a in (t ++ t', c)
  | (t, Throw e) => (t, Throw e)
  | (t, Exit n) => (t, Exit n)
  end.

Notation "x <- m ;; k" := (bind m (fun x => k))
  (at level 61, m at next level, right associativity).
Notation "m ;; k" := (bind m (fun _ => k))
  (at level 61, right associativity).

Definition perform (e : effect) : M unit := ([e], Normal tt).
Definition throw {A} (e : error) : M A := ([], Throw e).
Definition processExit {A} (code : N) : M A := ([], Exit code).

(** [try { m } catch (e) { h e }]. *)
Definition tryCatch {A} (m : M A) (h : error -> M A) : M A :=
  match m with
  | (t, Throw e) => let (t', c) := h e in (t ++ t', c)
  | _ => m
  end.

Definition consoleLog (args : list arg) : M unit := perform (ConsoleLog args).
Definition consoleError (args : list arg) : M unit := perform (ConsoleError args).

(** Non-ASCII characters of the script's messages, as code units. *)
Module Glyph.
Definition globe : jsstring := [55356; 57104].
Definition cross : jsstring := [10060].
Definition rocket : jsstring := [55357; 56960].
Definition document : jsstring := [55357; 56516].
Definition hourglass : jsstring := [9203].
Definition check : jsstring := [9989].
Definition printer : jsstring := [55357; 56744].
Definition sparkles : jsstring := [10024].
Definition folder : jsstring := [55357; 56513].
Definition arrow : jsstring := [8594].
Definition dash : jsstring := [8212].
Definition middot : jsstring := [183].
Definition rule (n : nat) : jsstring := repeat 9472 n.
End Glyph.

(** The three listeners of lines 55-65. *)
Definition forward (ev : pageEvent) : effect :=
  match ev with
  | Console type text =>
      if eqb type (str "error") then ConsoleLog [Str (str "  [browser error]"); Str text]
      else if eqb type (str "warn") then ConsoleLog [Str (str "  [browser warn]"); Str text]
      else ConsoleLog [Str (str "  [browser]"); Str text]
  | PageError err => ConsoleLog [Str (str "  [page exception]"); Str (message err)]
  | RequestFailed url errorText =>
      ConsoleLog [Str (str "  [request failed]"); Str (substring0 120 url);
                  match errorText with Some t => Str t | None => Undefined end]
  end.

(** What a run leaves behind. *)
Record outcome := { trace : list effect; exitStatus : N }.

Definition PORT : N := 3179.

Definition url : jsstring :=
  str "http://127.0.0.1:" ++ ofNum PORT ++ str "/booklet.html".

Section Run.

Variable w : World.

(** How an awaited call settles. *)
Definition settled (s : step) : M unit :=
  match rejects w s with
  | Some err => throw err
  | None => ret tt
  end.

(** An awaited call made before the listeners are attached. *)
Definition await (s : step) (e : effect) : M unit :=
  perform e ;; settled s.

(** The effects of a call awaited once the listeners are attached: the
    page events delivered meanwhile are forwarded to the console. *)
Definition listening (s : step) (e : effect) : M unit :=
  (e :: map forward (emits w s), Normal tt).

Definition awaitPage (s : step) (e : effect) : M unit :=
  listening s e ;; settled s.

(** [await new Promise(r => setTimeout(r, ms))]: never rejects. *)
Definition delay (ms : N) : M unit :=
  listening AtSettle (Sleep ms).

(** [startServer(folder, port)]: the promise rejects with the server's
    ['error'] event and resolves with the server once it listens. *)
Definition startServer (folder : jsstring) (port : N) : M Server :=
  perform (Listen folder port (str "127.0.0.1")) ;;
  match rejects w AtListen with
  | Some err => throw err
  | None => ret {| root := folder; boundPort := port |}
  end.

(** The polls of [page.waitForFunction]: [pred] on the document at poll
    [k], [k + 1], ... for [n] polls. *)
Fixpoint poll (pred : Dom.Document -> bool) (k n : nat) : bool :=
  match n with
  | O => false
  | S n' => if pred (documentAtPoll w k) then true else poll pred (S k) n'
  end.

(** [page.waitForFunction(pred, { timeout, polling })]: resolves at the
    first poll where [pred] holds, rejects when the [timeout / polling]
    polls that fit in the timeout have all failed. *)
Definition waitForFunction (pred : Dom.Document -> bool) (timeout polling : N)
  : M unit :=
  awaitPage AtWait (WaitForFunction timeout polling) ;;
  if poll pred 0 (N.to_nat (timeout / polling)) then ret tt
  else throw {| message := str "Waiting failed: " ++ ofNum timeout ++ str "ms exceeded" |}.

(** [page.evaluate(callback)] with the callback of lines 89-98. *)
Definition evaluate : M Diagnostics :=
  awaitPage AtEvaluate Evaluate ;;
  match diagnosticsOf (documentAtEvaluate w) with
  | Some diagnostics => ret diagnostics
  | None => throw (evaluateError w)
  end.

(** [page.pdf(options)]: the file exists once the call has resolved. *)
Definition pdf (options : pdfOptions) : M unit :=
  awaitPage AtPdf (Pdf options) ;;
  perform (FileWritten (path options)).

Definition outputPath : jsstring :=
  Path.resolve (cwd w) [__dirname w; str "expo_booklet.pdf"].

(** The async function of lines 32-141, in three consecutive blocks.
    Lines 120-140: settle, capture, tear down, report. *)
Definition capture (diagnostics : Diagnostics) : M unit :=
  delay 1500 ;;

  let cardCount := cardCount diagnostics in
  let pageCount := pageCount diagnostics in
  consoleLog [Str (Glyph.check ++ str " Rendered " ++ ofNum cardCount
                   ++ str " exhibits across " ++ ofNum pageCount ++ str " pages")] ;;

  consoleLog [Str (Glyph.printer ++ str "  Generating PDF " ++ Glyph.arrow ++ str " "
                   ++ outputPath)] ;;
  pdf {| path := outputPath;
         format := str "Letter";
         printBackground := true;
         margin := (0, 0, 0, 0);
         preferCSSPageSize := true |} ;;

  awaitPage AtClose BrowserClose ;;
  perform ServerClose ;;

  consoleLog [Str ([10] ++ Glyph.sparkles ++ str " Done!")] ;;
  consoleLog [Str (str "   " ++ Glyph.folder ++ str " " ++ outputPath)] ;;
  consoleLog [Str (str "   " ++ ofNum pageCount ++ str " pages " ++ Glyph.middot
                   ++ str " " ++ ofNum cardCount ++ str " exhibits")].

(** Lines 100-118: the diagnostics block and the decision. *)
Definition decide (timedOut : bool) (diagnostics : Diagnostics) : M unit :=
  consoleLog [Str ([10] ++ Glyph.rule 2 ++ str " Page diagnostics " ++ Glyph.rule 34)] ;;
  consoleLog [Str (str "  Title:       "); Str (title diagnostics)] ;;
  consoleLog [Str (str "  Cards found: "); Num (cardCount diagnostics)] ;;
  consoleLog [Str (str "  Pages found: "); Num (pageCount diagnostics)] ;;
  consoleLog [Str (str "  #loading:    "); Str (loadingText diagnostics)] ;;
  consoleLog [Str (str "  #status:     "); Str (statusText diagnostics)] ;;
  consoleLog [Str (str "  Body snippet:");
              Str (substring0 300 (collapseSpaces false (bodySnippet diagnostics)))] ;;
  consoleLog [Str (Glyph.rule 54 ++ [10])] ;;

  (if timedOut || (cardCount diagnostics =? 0) then
     consoleError [Str (Glyph.cross ++ str " No cards rendered. See diagnostics above.")] ;;
     consoleError [Str (str "   Common causes:")] ;;
     consoleError [Str (str "   1. Google Sheets not published to web (File " ++ Glyph.arrow
                        ++ str " Share " ++ Glyph.arrow ++ str " Publish to web "
                        ++ Glyph.arrow ++ str " CSV)")] ;;
     consoleError [Str (str "   2. The sheet URL has changed")] ;;
     consoleError [Str (str "   3. A JS error in booklet.html (check [browser error] lines above)")] ;;
     awaitPage AtClose BrowserClose ;;
     perform ServerClose ;;
     processExit 1
   else ret tt) ;;

  capture diagnostics.

(** Lines 77-98: the render wait and the diagnostics snapshot. *)
Definition renderWait : M unit :=
  consoleLog [Str (Glyph.hourglass ++ str " Waiting up to 45s for cards to render...")] ;;
  timedOut <- tryCatch (waitForFunction cardsRendered 45000 500 ;; ret false)
                (fun e => ret true) ;;

  diagnostics <- evaluate ;;

  decide timedOut diagnostics.

(** Lines 32-75: server, browser, page, navigation. *)
Definition main : M unit :=
  consoleLog [Str (Glyph.globe ++ str " Starting local file server on port");
              Num PORT; Str (str "...")] ;;
  server <- tryCatch (startServer (__dirname w) PORT)
              (fun e =>
                 consoleError [Str (Glyph.cross ++ str " Could not start server on port "
                                    ++ ofNum PORT ++ str ": " ++ message e)] ;;
                 processExit 1) ;;

  consoleLog [Str (Glyph.rocket ++ str " Launching headless Chrome...")] ;;
  await AtLaunch (Launch true [str "--no-sandbox"; str "--disable-setuid-sandbox"]) ;;

  await AtNewPage NewPage ;;
  await AtSetViewport (SetViewport 1200 900) ;;

  consoleLog [Str (Glyph.document ++ str " Opening " ++ url ++ str " ...")] ;;
  tryCatch (awaitPage AtGoto (Goto url (str "networkidle0") 60000))
    (fun e =>
       consoleLog [Str (str "  (networkidle0 timed out " ++ Glyph.dash
                        ++ str " continuing anyway, this is normal)")]) ;;

  renderWait.

(** The [.catch] handler of lines 142-145 and the exit status: a run that
    neither exits nor throws ends with status 0. *)
Definition atExit (m : M unit) : outcome :=
  match m with
  | (t, Normal _) => {| trace := t; exitStatus := 0 |}
  | (t, Exit code) => {| trace := t; exitStatus := code |}
  | (t, Throw err) =>
      {| trace := t ++ [ConsoleError [Str (Glyph.cross ++ str " Unexpected error:");
                                      Str (message err)]];
         exitStatus := 1 |}
  end.

(** The whole script. *)
Definition run : outcome := atExit main.

End Run.

(** ** Specification vocabulary *)

(** The files a run has written, in order. *)
Fixpoint filesWritten (t : list effect) : list jsstring :=
  match t with
  | [] => []
  | FileWritten file :: t' => file :: filesWritten t'
  | _ :: t' => filesWritten t'
  end.

(** The failure explanation of lines 110-114. *)
Definition failureExplanation : list effect :=
  [ ConsoleError [Str (Glyph.cross ++ str " No cards rendered. See diagnostics above.")];
    ConsoleError [Str (str "   Common causes:")];
    ConsoleError [Str (str "   1. Google Sheets not published to web (File " ++ Glyph.arrow
                       ++ str " Share " ++ Glyph.arrow ++ str " Publish to web "
                       ++ Glyph.arrow ++ str " CSV)")];
    ConsoleError [Str (str "   2. The sheet URL has changed")];
    ConsoleError [Str (str "   3. A JS error in booklet.html (check [browser error] lines above)")] ].

(** The line logged when the navigation wait is abandoned (line 74). *)
Definition navigationTimeoutNote : effect :=
  ConsoleLog [Str (str "  (networkidle0 timed out " ++ Glyph.dash
                   ++ str " continuing anyway, this is normal)")].

(** The first effects of the render wait (lines 77-83). *)
Definition renderWaitStart : list effect :=
  [ ConsoleLog [Str (Glyph.hourglass ++ str " Waiting up to 45s for cards to render...")];
    WaitForFunction 45000 500 ].

(** The number of polls that fit in the render wait: 45000 / 500. *)
Definition renderPolls : nat := N.to_nat (45000 / 500).

(** The flag [timedOut] of lines 78-86: set when [waitForFunction] rejects,
    for a reason of its own or because no poll saw a card. *)
Definition timedOutFlag (w : World) : bool :=
  match rejects w AtWait with
  | Some _ => true
  | None => negb (poll w cardsRendered 0 renderPolls)
  end.

(** The run gets as far as the navigation: the server listens, the browser
    is launched, the page is open and sized. *)
Definition reachesNavigation (w : World) : Prop :=
  rejects w AtListen = None /\ rejects w AtLaunch = None
  /\ rejects w AtNewPage = None /\ rejects w AtSetViewport = None.

(** The render-wait condition becomes true before the timeout: the call does
    not fail and one of the polls sees a card. *)
Definition renderedInTime (w : World) : Prop :=
  rejects w AtWait = None
  /\ exists k, (k < renderPolls)%nat /\ cardsRendered (documentAtPoll w k) = true.

(** The diagnostics snapshot of the run is [diagnostics]. *)
Definition snapshot (w : World) (diagnostics : Diagnostics) : Prop :=
  rejects w AtEvaluate = None
  /\ diagnosticsOf (documentAtEvaluate w) = Some diagnostics.

Definition isBrowserClose (e : effect) : bool :=
  match e with BrowserClose => true | _ => false end.

Definition isServerClose (e : effect) : bool :=
  match e with ServerClose => true | _ => false end.

Definition isListen (e : effect) : bool :=
  match e with Listen _ _ _ => true | _ => false end.

Definition isLaunch (e : effect) : bool :=
  match e with Launch _ _ => true | _ => false end.

(** An ASCII letter. *)
Definition isLetter (c : N) : bool :=
  ((65 <=? c) && (c <=? 90)) || ((97 <=? c) && (c <=? 122)).

(** [a] differs from [b] at most in the case of ASCII letters. *)
Fixpoint caseVariant (a b : jsstring) : bool :=
  match a, b with
  | [], [] => true
  | x :: a', y :: b' =>
      ((x =? y) || (isLetter x && isLetter y && (asciiLower x =? asciiLower y)))
      && caseVariant a' b'
  | _, _ => false
  end.

(** A path that [fs.readFile] accepts: no NUL code unit. *)
Definition nulFree (p : jsstring) : bool := negb (existsb (N.eqb 0) p).

Definition step_eqb (a b : step) : bool :=
  match a, b with
  | AtListen, AtListen | AtLaunch, AtLaunch | AtNewPage, AtNewPage
  | AtSetViewport, AtSetViewport | AtGoto, AtGoto | AtWait, AtWait
  | AtEvaluate, AtEvaluate | AtSettle, AtSettle | AtPdf, AtPdf
  | AtClose, AtClose => true
  | _, _ => false
  end.

(** The world [w] with the outcome of one awaited call replaced. *)
Definition withOutcome (s : step) (o : option error) (w : World) : World :=
  {| __dirname := __dirname w;
     cwd := cwd w;
     rejects := fun s' => if step_eqb s' s then o else rejects w s';
     emits := emits w;
     documentAtPoll := documentAtPoll w;
     documentAtEvaluate := documentAtEvaluate w;
     evaluateError := evaluateError w |}.

(** ** Proof automation *)

(** Exposes the primitive computations a block of the script is made of. *)
Ltac blocks :=
  unfold startServer, pdf, evaluate, waitForFunction, delay, await, awaitPage,
    settled, listening, consoleLog, consoleError, perform, tryCatch, processExit.

(** Runs the binds whose first computation is known. *)
Ltac compute_M := cbn [bind ret throw fst snd app].

Create Rewrite HintDb written.

(** Computes [filesWritten] of a trace built from known effects, forwarded
    page events and appends, with the rewrite database [written]. *)
Ltac files :=
  repeat first [ progress autorewrite with written
               | progress cbn [filesWritten app] ];
  try reflexivity.

(** ** Sample inputs *)

Module Sample.

Definition folder : jsstring := str "/srv/expo".

(** Case tables standing in for Unicode's: they leave a string as it is. *)
Definition unicodeLower (s : jsstring) : jsstring := s.

Definition emptyDisk : Fs.disk := fun _ => None.

Definition disk : Fs.disk := fun p =>
  if eqb p (str "/srv/expo/booklet.html") then Some (list_byte_of_string "<html>expo</html>")
  else if eqb p (str "/srv/expo/img/LOGO.PNG") then Some (list_byte_of_string "PNG")
  else if eqb p (str "/srv/expo/notes") then Some (list_byte_of_string "notes")
  else None.

Definition rendered : Dom.Document :=
  {| Dom.title := str "Expo";
     Dom.exhibitBoxes := 3;
     Dom.pages := 2;
     Dom.loading := None;
     Dom.status := Some (str "Loaded 3 exhibits");
     Dom.body := Some (str "<div class='page'>  ...  </div>") |}.

Definition blank : Dom.Document :=
  {| Dom.title := str "Expo";
     Dom.exhibitBoxes := 0;
     Dom.pages := 0;
     Dom.loading := Some (str "Loading...");
     Dom.status := None;
     Dom.body := Some (str "<div id='loading'>Loading...</div>") |}.

(** A document whose [body] is null (its parser is still held up in the
    head, or a script removed the body). *)
Definition bodyless : Dom.Document :=
  {| Dom.title := str "Expo";
     Dom.exhibitBoxes := 0;
     Dom.pages := 0;
     Dom.loading := None;
     Dom.status := None;
     Dom.body := None |}.

Definition failure (s : string) : error := {| message := str s |}.

(** Every call succeeds and the cards are there at the third poll. *)
Definition happy : World :=
  {| __dirname := folder;
     cwd := str "/home/user";
     rejects := fun _ => None;
     emits := fun s => match s with
                       | AtGoto => [Console (str "log") (str "fetching sheet")]
                       | _ => []
                       end;
     documentAtPoll := fun k => if Nat.ltb k 2 then blank else rendered;
     documentAtEvaluate := rendered;
     evaluateError := failure "Cannot read properties of null (reading 'innerHTML')" |}.

(** The cards never appear. *)
Definition empty : World :=
  {| __dirname := folder;
     cwd := str "/home/user";
     rejects := fun _ => None;
     emits := fun _ => [];
     documentAtPoll := fun _ => blank;
     documentAtEvaluate := blank;
     evaluateError := failure "Cannot read properties of null (reading 'innerHTML')" |}.

(** The cards never appear and the document has no body. *)
Definition stuck : World :=
  {| __dirname := folder;
     cwd := str "/home/user";
     rejects := fun _ => None;
     emits := fun _ => [];
     documentAtPoll := fun _ => bodyless;
     documentAtEvaluate := bodyless;
     evaluateError := failure "Cannot read properties of null (reading 'innerHTML')" |}.

Definition portTaken : World :=
  withOutcome AtListen (Some (failure "listen EADDRINUSE: address already in use 127.0.0.1:3179")) happy.

Definition noChrome : World :=
  withOutcome AtLaunch (Some (failure "Could not find Chrome")) happy.

Definition slowSheet : World :=
  withOutcome AtGoto (Some (failure "Navigation timeout of 60000 ms exceeded")) happy.

Definition pdfFails : World :=
  withOutcome AtPdf (Some (failure "EACCES: permission denied")) happy.

Definition closeFails : World :=
  withOutcome AtClose (Some (failure "Protocol error: Target closed")) empty.

End Sample.

(** ** Further vocabulary: what a run did *)

Definition isConsoleLog (e : effect) : bool :=
  match e with ConsoleLog _ => true | _ => false end.

Definition isConsoleError (e : effect) : bool :=
  match e with ConsoleError _ => true | _ => false end.

Definition isEvaluate (e : effect) : bool :=
  match e with Evaluate => true | _ => false end.

Definition isPdf (e : effect) : bool :=
  match e with Pdf _ => true | _ => false end.

(** The effects of a trace that are not [console.log] lines. *)
Definition withoutLogs (t : list effect) : list effect :=
  filter (fun e => negb (isConsoleLog e)) t.

(** A summary of a run: its exit status, the files it wrote and which calls
    it made. *)
Record digest := {
  exited : N;
  files : list jsstring;
  launched : bool;          (* puppeteer.launch was called *)
  evaluated : bool;         (* page.evaluate was called *)
  captured : bool;          (* page.pdf was called *)
  browserClosed : bool;     (* browser.close was called *)
  serverClosed : bool;      (* server.close was called *)
  complained : bool         (* console.error was called *)
}.

Definition digestOf (o : outcome) : digest :=
  {| exited := exitStatus o;
     files := filesWritten (trace o);
     launched := existsb isLaunch (trace o);
     evaluated := existsb isEvaluate (trace o);
     captured := existsb isPdf (trace o);
     browserClosed := existsb isBrowserClose (trace o);
     serverClosed := existsb isServerClose (trace o);
     complained := existsb isConsoleError (trace o) |}.

(** The summary a world leads to, read off the outcomes of the awaited calls
    in program order (proved equal to [digestOf (run w)] below). *)
Definition verdict (w : World) : digest :=
  match rejects w AtListen with
  | Some _ =>
      {| exited := 1; files := []; launched := false; evaluated := false;
         captured := false; browserClosed := false; serverClosed := false;
         complained := true |}
  | None =>
      match rejects w AtLaunch, rejects w AtNewPage, rejects w AtSetViewport with
      | None, None, None =>
          match rejects w AtEvaluate, diagnosticsOf (documentAtEvaluate w) with
          | None, Some diagnostics =>
              if timedOutFlag w || (cardCount diagnostics =? 0) then
                {| exited := 1; files := []; launched := true; evaluated := true;
                   captured := false; browserClosed := true;
                   serverClosed := match rejects w AtClose with
                                   | None => true
                                   | Some _ => false
                                   end;
                   complained := true |}
              else
                match rejects w AtPdf, rejects w AtClose with
                | None, None =>
                    {| exited := 0; files := [outputPath w]; launched := true;
                       evaluated := true; captured := true; browserClosed := true;
                       serverClosed := true; complained := false |}
                | None, Some _ =>
                    {| exited := 1; files := [outputPath w]; launched := true;
                       evaluated := true; captured := true; browserClosed := true;
                       serverClosed := false; complained := true |}
                | Some _, _ =>
                    {| exited := 1; files := []; launched := true;
                       evaluated := true; captured := true; browserClosed := false;
                       serverClosed := false; complained := true |}
                end
          | _, _ =>
              {| exited := 1; files := []; launched := true; evaluated := true;
                 captured := false; browserClosed := false; serverClosed := false;
                 complained := true |}
          end
      | _, _, _ =>
          {| exited := 1; files := []; launched := true; evaluated := false;
             captured := false; browserClosed := false; serverClosed := false;
             complained := true |}
      end
  end.

(** The world [w] with other page events delivered during the awaited
    calls. *)
Definition withEvents (ev : step -> list pageEvent) (w : World) : World :=
  {| __dirname := __dirname w;
     cwd := cwd w;
     rejects := rejects w;
     emits := ev;
     documentAtPoll := documentAtPoll w;
     documentAtEvaluate := documentAtEvaluate w;
     evaluateError := evaluateError w |}.

(** Two computations that end the same way and differ at most in their
    [console.log] lines. *)
Definition sameButLogs {A} (m m' : M A) : Prop :=
  snd m = snd m' /\ withoutLogs (fst m) = withoutLogs (fst m').

(** ** Further vocabulary: paths and text *)

(** A path segment that [normalizeString] keeps as it is: not empty, not
    [.] or [..], without a separator. *)
Definition plainSegment (seg : jsstring) : bool :=
  negb (eqb seg []) && negb (eqb seg [Path.DOT]) && negb (eqb seg [Path.DOT; Path.DOT])
  && forallb (fun c => negb (c =? Path.SLASH)) seg.

(** The absolute path made of the given segments. *)
Definition absolutePath (segs : list jsstring) : jsstring :=
  Path.SLASH :: Js.join [Path.SLASH] segs.

(** A URL the listener takes literally: no escape and no query. *)
Definition literalUrl (url : jsstring) : bool :=
  forallb (fun c => negb (c =? 37) && negb (c =? 63)) url.

(** [n] times [/..]. *)
Fixpoint climb (n : nat) : jsstring :=
  match n with
  | O => []
  | S n' => Path.SLASH :: Path.DOT :: Path.DOT :: climb n'
  end.


(** The content types the server can send. *)
Definition contentTypes : list jsstring :=
  map snd MIME ++ [str "application/octet-stream"].

(** ** Further sample inputs *)

(** A disk with a file above the served folder. *)
Definition hostDisk : Fs.disk := fun p =>
  if eqb p (str "/etc/passwd") then Some (list_byte_of_string "root:x:0:0")
  else Sample.disk p.

(** ** Further proof automation *)

(** Closes one path through the script, once the outcomes met on it are
    known, by evaluation. *)
Ltac path_done := vm_compute; reflexivity.

(** Splits on the outcomes the summary of a run depends on. *)
Ltac split_verdict :=
  repeat match goal with
         | H : context [match rejects ?w ?s with _ => _ end] |- _ =>
             destruct (rejects w s) eqn:?
         | H : context [match diagnosticsOf ?d with _ => _ end] |- _ =>
             destruct (diagnosticsOf d) eqn:?
         | H : context [if ?b then _ else _] |- _ => destruct b eqn:?
         end;
  cbn [exited files launched evaluated captured browserClosed serverClosed
       complained] in *.

(** The document [doc] with another [#loading] element. *)
Definition withLoading (l : option jsstring) (doc : Dom.Document) : Dom.Document :=
  {| Dom.title := Dom.title doc;
     Dom.exhibitBoxes := Dom.exhibitBoxes doc;
     Dom.pages := Dom.pages doc;
     Dom.loading := l;
     Dom.status := Dom.status doc;
     Dom.body := Dom.body doc |}.

(** The document [doc] with another [#status] element. *)
Definition withStatus (s : option jsstring) (doc : Dom.Document) : Dom.Document :=
  {| Dom.title := Dom.title doc;
     Dom.exhibitBoxes := Dom.exhibitBoxes doc;
     Dom.pages := Dom.pages doc;
     Dom.loading := Dom.loading doc;
     Dom.status := s;
     Dom.body := Dom.body doc |}.

(** The diagnostics block of lines 100-107. *)
Definition diagnosticsBlock (diagnostics : Diagnostics) : list effect :=
  [ ConsoleLog [Str ([10] ++ Glyph.rule 2 ++ str " Page diagnostics " ++ Glyph.rule 34)];
    ConsoleLog [Str (str "  Title:       "); Str (title diagnostics)];
    ConsoleLog [Str (str "  Cards found: "); Num (cardCount diagnostics)];
    ConsoleLog [Str (str "  Pages found: "); Num (pageCount diagnostics)];
    ConsoleLog [Str (str "  #loading:    "); Str (loadingText diagnostics)];
    ConsoleLog [Str (str "  #status:     "); Str (statusText diagnostics)];
    ConsoleLog [Str (str "  Body snippet:");
                Str (substring0 300 (collapseSpaces false (bodySnippet diagnostics)))];
    ConsoleLog [Str (Glyph.rule 54 ++ [10])] ].


(** ** Sanity checks of the built-in models *)

Example decode_plain : decodeURIComponent (str "/a%20b.html") = Some (str "/a b.html").
Proof. reflexivity. Qed.

Example decode_utf8 : decodeURIComponent (str "%C3%A9%E2%82%AC%F0%9F%8C%90")
                      = Some [233; 8364; 55356; 57104].
Proof. reflexivity. Qed.

Example decode_bad : decodeURIComponent (str "/%") = None
                     /\ decodeURIComponent (str "%C0%80") = None
                     /\ decodeURIComponent (str "%ED%A0%80") = None
                     /\ decodeURIComponent (str "%zz") = None.
Proof. repeat split; reflexivity. Qed.

Example join_root : Path.join [str "/srv/expo"; str "booklet.html"] = str "/srv/expo/booklet.html".
Proof. reflexivity. Qed.

Example join_abs : Path.join [str "/srv/expo"; str "/a/./b//../c.css"] = str "/srv/expo/a/c.css".
Proof. reflexivity. Qed.

Example join_escape : Path.join [str "/srv/expo"; str "/../../etc/passwd/"] = str "/etc/passwd/".
Proof. reflexivity. Qed.

Example join_above : Path.join [str "a"; str "../../b"] = str "../b"
                     /\ Path.join [str ""; str ""] = str "."
                     /\ Path.join [str "/"; str ".."] = str "/".
Proof. repeat split; reflexivity. Qed.

Example resolve_out : Path.resolve (str "/home/u") [str "/srv/expo"; str "expo_booklet.pdf"]
                      = str "/srv/expo/expo_booklet.pdf"
                      /\ Path.resolve (str "/home/u") [str "x/"; str "../y"] = str "/home/u/y".
Proof. split; reflexivity. Qed.

Example extname_cases :
  map Path.extname [str "/a/b.HTML"; str "a.b/"; str ".bashrc"; str "x."; str "..";
                    str "..."; str "..x"; str "/a.b/c"; str ""; str "a.tar.gz"]
  = [str ".HTML"; str ".b"; str ""; str "."; str ""; str "."; str ".x"; str ""; str ""; str ".gz"].
Proof. reflexivity. Qed.

Example serve_samples :
  requestListener Sample.unicodeLower Sample.disk Sample.folder (str "/?v=2")
  = Responded {| status := 200; headers := [(str "Content-Type", str "text/html")];
                 body := list_byte_of_string "<html>expo</html>" |}
  /\ requestListener Sample.unicodeLower Sample.disk Sample.folder (str "/img/LOGO.PNG")
     = Responded {| status := 200; headers := [(str "Content-Type", str "image/png")];
                    body := list_byte_of_string "PNG" |}
  /\ requestListener Sample.unicodeLower Sample.disk Sample.folder (str "/notes")
     = Responded {| status := 200;
                    headers := [(str "Content-Type", str "application/octet-stream")];
                    body := list_byte_of_string "notes" |}
  /\ requestListener Sample.unicodeLower Sample.disk Sample.folder (str "/missing.css")
     = Responded {| status := 404; headers := []; body := list_byte_of_string "Not found" |}.
Proof. repeat split; reflexivity. Qed.

Example run_happy :
  exitStatus (run Sample.happy) = 0
  /\ filesWritten (trace (run Sample.happy)) = [str "/srv/expo/expo_booklet.pdf"]
  /\ List.length (trace (run Sample.happy)) = 30%nat.
Proof. repeat split; vm_compute; reflexivity. Qed.

Example decode_edges :
  map decodeURIComponent
      [str "%41"; str "%7f"; str "%80"; str "%e9"; str "%C2%80"; str "%E0%80%80";
       str "%EF%BF%BE"; str "%F4%8F%BF%BF"; str "%F4%90%80%80"; str "%F8%80%80%80%80";
       str "%4"; str "a%2"; str "%C3x%A9"]
  = [Some (str "A"); Some [127]; None; None; Some [128]; None;
     Some [65534]; Some [56319; 57343]; None; None;
     None; None; None].
Proof. reflexivity. Qed.

Example mime_upper_case unicodeLower :
  mimeOf unicodeLower (str "/srv/expo/INDEX.HTML") = str "text/html"
  /\ mimeOf unicodeLower (str "/srv/expo/print.Css") = str "text/css"
  /\ mimeOf unicodeLower (str "/srv/expo/data.json") = str "application/octet-stream"
  /\ mimeOf unicodeLower (str "/srv/expo/.html") = str "application/octet-stream".
Proof. repeat split; reflexivity. Qed.

(** ** Strings and paths *)

Lemma eqb_eq (a b : jsstring) : eqb a b = true <-> a = b.
Proof.
  revert b; induction a as [|x a IH]; intros [|y b]; simpl; split;
    try discriminate; try reflexivity.
  - intros H. apply andb_true_iff in H as [Hx Hr].
    apply N.eqb_eq in Hx. apply IH in Hr. congruence.
  - intros H. injection H as -> ->. rewrite N.eqb_refl. simpl. now apply IH.
Qed.

(** A string without [%] decodes to itself. *)
Lemma decodeURIComponent_plain (s : jsstring) :
  forallb (fun c => negb (c =? 37)) s = true -> decodeURIComponent s = Some s.
Proof.
  induction s as [|c s IH]; [reflexivity|]. simpl. intros H.
  apply andb_true_iff in H as [Hc Hs]. rewrite Hc, (IH Hs). reflexivity.
Qed.

Lemma split_cons sep (s : jsstring) : exists seg rest, split sep s = seg :: rest.
Proof.
  induction s as [|c t [seg [rest IH]]]; simpl.
  - now exists [], [].
  - destruct (c =? sep); [now exists [], (split sep t)|].
    rewrite IH. now exists (c :: seg), rest.
Qed.

(** A separator closes the piece in progress: splitting distributes over it. *)
Lemma split_app sep (a b : jsstring) :
  split sep (a ++ sep :: b) = split sep a ++ split sep b.
Proof.
  induction a as [|c a IH]; simpl.
  - now rewrite N.eqb_refl.
  - destruct (c =? sep); rewrite IH; [reflexivity|].
    destruct (split_cons sep a) as [seg [rest ->]]. reflexivity.
Qed.

Lemma join_cons sep (p q : jsstring) (l : list jsstring) :
  Js.join sep (p :: q :: l) = p ++ sep ++ Js.join sep (q :: l).
Proof. reflexivity. Qed.

(** Joining the pieces with the separator gives the string back. *)
Lemma join_split sep (s : jsstring) : Js.join [sep] (split sep s) = s.
Proof.
  induction s as [|c s IH]; [reflexivity|]. simpl split.
  destruct (split_cons sep s) as [seg [rest Hs]]. rewrite Hs in *.
  destruct (c =? sep) eqn:E.
  - apply N.eqb_eq in E. subst c. rewrite join_cons, IH. reflexivity.
  - destruct rest as [|q rest].
    + simpl in *. now rewrite IH.
    + rewrite join_cons in *. rewrite <- IH. reflexivity.
Qed.

(** [path.extname] returns the empty string or a string that starts with
    a dot. *)
Lemma extname_shape (p : jsstring) :
  Path.extname p = [] \/ exists e, Path.extname p = Path.DOT :: e.
Proof.
  unfold Path.extname.
  destruct (Path.atLastDot _) as [[revAfter [|b revBefore]]|]; auto.
  destruct (eqb revAfter [] && eqb (b :: revBefore) [Path.DOT]); eauto.
Qed.

Lemma normalize_skips_empty allow (segs kept : list jsstring) :
  fold_left (Path.normalizeStep allow) ([] :: segs) kept
  = fold_left (Path.normalizeStep allow) segs kept.
Proof. reflexivity. Qed.

Lemma startsWithSlash_app (a b : jsstring) :
  a <> [] -> Path.startsWithSlash (a ++ b) = Path.startsWithSlash a.
Proof. destruct a; [congruence | reflexivity]. Qed.

Lemma endsWithSlash_app (a b : jsstring) :
  b <> [] -> Path.endsWithSlash (a ++ b) = Path.endsWithSlash b.
Proof.
  intros Hb. unfold Path.endsWithSlash. rewrite rev_app_distr.
  apply startsWithSlash_app. intros H. apply Hb.
  rewrite <- (rev_involutive b), H. reflexivity.
Qed.

(** A doubled separator does not change what [normalizeString] keeps. *)
Lemma normalizeString_double_slash (a b : jsstring) allow :
  Path.normalizeString (a ++ Path.SLASH :: Path.SLASH :: b) allow
  = Path.normalizeString (a ++ Path.SLASH :: b) allow.
Proof.
  unfold Path.normalizeString. rewrite !split_app.
  change (split Path.SLASH (Path.SLASH :: b)) with ([] :: split Path.SLASH b).
  rewrite !fold_left_app. now rewrite normalize_skips_empty.
Qed.

(** [normalize] looks at its argument through four observations only. *)
Lemma normalize_ext (x y : jsstring) :
  x <> [] -> y <> [] ->
  Path.startsWithSlash x = Path.startsWithSlash y ->
  Path.endsWithSlash x = Path.endsWithSlash y ->
  (forall allow, Path.normalizeString x allow = Path.normalizeString y allow) ->
  Path.normalize x = Path.normalize y.
Proof.
  intros Hx Hy Hs He Hn.
  destruct x as [|x0 x]; [congruence|]. destruct y as [|y0 y]; [congruence|].
  unfold Path.normalize. rewrite Hs, He, Hn. reflexivity.
Qed.

Lemma normalize_double_slash (a b : jsstring) :
  a <> [] -> b <> [] ->
  Path.normalize (a ++ Path.SLASH :: Path.SLASH :: b)
  = Path.normalize (a ++ Path.SLASH :: b).
Proof.
  intros Ha Hb. apply normalize_ext.
  - destruct a; [congruence | discriminate].
  - destruct a; [congruence | discriminate].
  - now rewrite !startsWithSlash_app.
  - replace (a ++ Path.SLASH :: Path.SLASH :: b)
      with ((a ++ [Path.SLASH; Path.SLASH]) ++ b)
      by (rewrite <- app_assoc; reflexivity).
    replace (a ++ Path.SLASH :: b) with ((a ++ [Path.SLASH]) ++ b)
      by (rewrite <- app_assoc; reflexivity).
    now rewrite !endsWithSlash_app.
  - intros allow. apply normalizeString_double_slash.
Qed.

(** Joining a name to a folder, with or without a leading separator. *)
Lemma join_leading_slash (folder name : jsstring) :
  folder <> [] -> name <> [] ->
  Path.join [folder; Path.SLASH :: name] = Path.join [folder; name].
Proof.
  intros Hf Hn. destruct folder as [|c f]; [congruence|].
  destruct name as [|n0 name]; [congruence|].
  unfold Path.join. cbn [fold_left Path.joinStep app].
  apply (normalize_double_slash (c :: f) (n0 :: name)); congruence.
Qed.

(** ** The extension table *)

Lemma getProp_In o k v : getProp o k = Some v -> In (k, v) o.
Proof.
  induction o as [|[k' v'] o IH]; simpl; [discriminate|].
  destruct (eqb k' k) eqn:E.
  - intros H. injection H as ->. apply eqb_eq in E. subst. now left.
  - intros H. right. now apply IH.
Qed.

(** Each entry of [MIME] is found under its key; keys are lower-case ASCII
    and values are non-empty. *)
Lemma MIME_entry key ct :
  In (key, ct) MIME ->
  getProp MIME key = Some ct /\ truthy ct = true
  /\ forallb isAscii key = true /\ map asciiLower key = key.
Proof.
  unfold MIME. intros H.
  repeat (destruct H as [H|H];
          [injection H as <- <-; repeat split; reflexivity|]).
  destruct H.
Qed.

Lemma mimeOf_entry unicodeLower filePath ct :
  In (toLowerCase unicodeLower (Path.extname filePath), ct) MIME ->
  mimeOf unicodeLower filePath = ct.
Proof.
  intros H. apply MIME_entry in H as (Hget & Htruthy & _).
  unfold mimeOf, orElse. now rewrite Hget, Htruthy.
Qed.

Lemma mimeOf_default unicodeLower filePath :
  (forall ct, ~ In (toLowerCase unicodeLower (Path.extname filePath), ct) MIME) ->
  mimeOf unicodeLower filePath = str "application/octet-stream".
Proof.
  intros H. unfold mimeOf, orElse.
  destruct (getProp MIME _) as [v|] eqn:E; [|reflexivity].
  apply getProp_In in E. now apply H in E.
Qed.

Lemma isLetter_isAscii c : isLetter c = true -> isAscii c = true.
Proof.
  unfold isLetter, isAscii. intros H. apply N.ltb_lt.
  apply orb_true_iff in H as [H|H]; apply andb_true_iff in H as [_ H];
    apply N.leb_le in H; lia.
Qed.

(** Lower-casing a case variant of a lower-case ASCII string gives that
    string back, whatever the Unicode tables say. *)
Lemma toLowerCase_caseVariant unicodeLower (ext key : jsstring) :
  caseVariant ext key = true ->
  forallb isAscii key = true -> map asciiLower key = key ->
  toLowerCase unicodeLower ext = key.
Proof.
  intros Hv Ha Hl.
  assert (H : forallb isAscii ext = true /\ map asciiLower ext = key).
  { revert key Hv Ha Hl. induction ext as [|x ext IH]; intros [|y key]; simpl;
      try discriminate; [now split|].
    intros Hv Ha Hl. apply andb_true_iff in Hv as [Hxy Hv].
    apply andb_true_iff in Ha as [Hy Ha]. injection Hl as Hy' Hl.
    destruct (IH key Hv Ha Hl) as [IH1 IH2]. rewrite IH1, IH2.
    apply orb_true_iff in Hxy as [Hxy|Hxy].
    - apply N.eqb_eq in Hxy. subst y. now rewrite Hy, Hy'.
    - apply andb_true_iff in Hxy as [Hxy Hlow].
      apply andb_true_iff in Hxy as [Hx _].
      apply N.eqb_eq in Hlow. rewrite (isLetter_isAscii _ Hx), Hlow, Hy'.
      now split. }
  destruct H as [H1 H2]. unfold toLowerCase. now rewrite H1.
Qed.

(** ** The request listener *)

(** C1 (as amended).  For every request whose URL path, the text before the
    first [?], is a well-formed percent-encoding and whose file path holds
    no NUL: when the file is readable the response has status 200, the
    file's bytes as body and, as Content-Type, the entry of the extension
    table for the file's lower-cased extension, or application/octet-stream
    when the table has none; when the file cannot be read the response has
    status 404. *)
Theorem requestListener_serves_files unicodeLower (d : Fs.disk) folder url urlPath :
  decodeURIComponent (hd [] (split 63 url)) = Some urlPath ->
  nulFree (filePathOf folder urlPath) = true ->
  (forall data, d (filePathOf folder urlPath) = Some data ->
     exists mime,
       requestListener unicodeLower d folder url
       = Responded {| status := 200;
                      headers := [(str "Content-Type", mime)];
                      body := data |}
       /\ (forall ct,
             In (toLowerCase unicodeLower (Path.extname (filePathOf folder urlPath)), ct) MIME ->
             mime = ct)
       /\ ((forall ct,
              ~ In (toLowerCase unicodeLower (Path.extname (filePathOf folder urlPath)), ct) MIME) ->
           mime = str "application/octet-stream"))
  /\ (d (filePathOf folder urlPath) = None ->
      requestListener unicodeLower d folder url
      = Responded {| status := 404; headers := [];
                     body := list_byte_of_string "Not found" |}).
Proof.
  intros Hdec Hnul. unfold nulFree in Hnul. apply negb_true_iff in Hnul.
  unfold requestListener, Fs.readFile. rewrite Hdec, Hnul. split.
  - intros data Hd. rewrite Hd. exists (mimeOf unicodeLower (filePathOf folder urlPath)).
    split; [reflexivity|]. split.
    + intros ct Hin. now apply mimeOf_entry.
    + apply mimeOf_default.
  - intros Hd. now rewrite Hd.
Qed.

Lemma requestListener_serves_files_witness :
  decodeURIComponent (hd [] (split 63 (str "/img/LOGO.PNG?v=2"))) = Some (str "/img/LOGO.PNG")
  /\ nulFree (filePathOf Sample.folder (str "/img/LOGO.PNG")) = true
  /\ Sample.disk (filePathOf Sample.folder (str "/img/LOGO.PNG")) = Some (list_byte_of_string "PNG")
  /\ exists mime,
       requestListener Sample.unicodeLower Sample.disk Sample.folder (str "/img/LOGO.PNG?v=2")
       = Responded {| status := 200; headers := [(str "Content-Type", mime)];
                      body := list_byte_of_string "PNG" |}.
Proof.
  assert (H1 : decodeURIComponent (hd [] (split 63 (str "/img/LOGO.PNG?v=2")))
               = Some (str "/img/LOGO.PNG")) by reflexivity.
  assert (H2 : nulFree (filePathOf Sample.folder (str "/img/LOGO.PNG")) = true) by reflexivity.
  assert (H3 : Sample.disk (filePathOf Sample.folder (str "/img/LOGO.PNG"))
               = Some (list_byte_of_string "PNG")) by reflexivity.
  repeat split; try assumption.
  destruct (requestListener_serves_files Sample.unicodeLower Sample.disk Sample.folder
              _ _ H1 H2) as [Hserved _].
  destruct (Hserved _ H3) as [mime [Hresp _]].
  exists mime. exact Hresp.
Defined.

(** C1 as stated fails: on a disk where no file can be read, the requests
    [/%] and [/%00] are not answered with 404; the listener throws. *)
Lemma requestListener_not_always_404 :
  (forall p, Sample.emptyDisk p = None)
  /\ requestListener Sample.unicodeLower Sample.emptyDisk Sample.folder (str "/%")
     = Uncaught URIError
  /\ requestListener Sample.unicodeLower Sample.emptyDisk Sample.folder (str "/%00")
     = Uncaught InvalidArgValue
  /\ ~ (forall url, exists r,
          requestListener Sample.unicodeLower Sample.emptyDisk Sample.folder url
          = Responded r /\ status r = 404).
Proof.
  repeat split.
  intros H. destruct (H (str "/%")) as [r [Hr _]]. discriminate Hr.
Qed.

(** C6.  The response to [/] is the response to [/booklet.html]: same
    status, same headers, same body, for every disk and every non-empty
    root folder. *)
Theorem root_is_default_document unicodeLower (d : Fs.disk) folder :
  folder <> [] ->
  requestListener unicodeLower d folder (str "/")
  = requestListener unicodeLower d folder (str "/booklet.html").
Proof.
  intros Hf. unfold requestListener.
  replace (decodeURIComponent (hd [] (split 63 (str "/"))))
    with (Some (str "/")) by reflexivity.
  replace (decodeURIComponent (hd [] (split 63 (str "/booklet.html"))))
    with (Some (str "/booklet.html")) by reflexivity.
  assert (Hp : filePathOf folder (str "/") = filePathOf folder (str "/booklet.html")).
  { unfold filePathOf.
    replace (eqb (str "/") (str "/")) with true by reflexivity.
    replace (eqb (str "/booklet.html") (str "/")) with false by reflexivity.
    symmetry. apply (join_leading_slash folder (str "booklet.html")); [assumption|].
    discriminate. }
  cbv beta iota zeta. rewrite Hp. reflexivity.
Qed.

(** X5.  A query string does not change the file a request designates:
    what follows the first [?] is ignored. *)
Lemma query_is_ignored unicodeLower (d : Fs.disk) folder (p q : jsstring) :
  forallb (fun c => negb (c =? 63)) p = true ->
  requestListener unicodeLower d folder (p ++ 63 :: q)
  = requestListener unicodeLower d folder p.
Proof.
  intros Hp. unfold requestListener.
  assert (Hhd : forall s, forallb (fun c => negb (c =? 63)) s = true -> split 63 s = [s]).
  { induction s as [|c s IH]; [reflexivity|]. simpl. intros H.
    apply andb_true_iff in H as [Hc Hs]. apply negb_true_iff in Hc.
    now rewrite Hc, (IH Hs). }
  rewrite split_app, (Hhd p Hp). reflexivity.
Qed.

Lemma root_is_default_document_witness :
  Sample.folder <> []
  /\ requestListener Sample.unicodeLower Sample.disk Sample.folder (str "/")
     = requestListener Sample.unicodeLower Sample.disk Sample.folder (str "/booklet.html").
Proof.
  assert (H : Sample.folder <> []) by discriminate.
  split; [exact H|].
  exact (root_is_default_document Sample.unicodeLower Sample.disk Sample.folder H).
Defined.

(** C9.  The request listener is not total: for the request [/%] it
    produces no response at all, on any disk and under any root;
    [decodeURIComponent] throws a URIError out of the listener. *)
Theorem requestListener_not_total :
  exists url,
    decodeURIComponent (hd [] (split 63 url)) = None
    /\ forall unicodeLower (d : Fs.disk) folder,
         requestListener unicodeLower d folder url = Uncaught URIError
         /\ forall r, requestListener unicodeLower d folder url <> Responded r.
Proof.
  exists (str "/%"). split; [reflexivity|].
  intros unicodeLower d folder.
  assert (H : requestListener unicodeLower d folder (str "/%") = Uncaught URIError)
    by reflexivity.
  split; [exact H|]. intros r. rewrite H. discriminate.
Qed.

(** C10.  The extension lookup ignores letter case: a served file whose
    extension is a case variant of a key of the table gets that key's
    content type. *)
Theorem content_type_ignores_case unicodeLower (d : Fs.disk) folder url urlPath data key ct :
  decodeURIComponent (hd [] (split 63 url)) = Some urlPath ->
  nulFree (filePathOf folder urlPath) = true ->
  d (filePathOf folder urlPath) = Some data ->
  In (key, ct) MIME ->
  caseVariant (Path.extname (filePathOf folder urlPath)) key = true ->
  requestListener unicodeLower d folder url
  = Responded {| status := 200; headers := [(str "Content-Type", ct)]; body := data |}.
Proof.
  intros Hdec Hnul Hd Hin Hv. unfold nulFree in Hnul. apply negb_true_iff in Hnul.
  unfold requestListener, Fs.readFile. rewrite Hdec, Hnul, Hd.
  destruct (MIME_entry _ _ Hin) as (_ & _ & Ha & Hl).
  rewrite (mimeOf_entry unicodeLower (filePathOf folder urlPath) ct); [reflexivity|].
  now rewrite (toLowerCase_caseVariant unicodeLower _ key Hv Ha Hl).
Qed.

Lemma content_type_ignores_case_witness :
  decodeURIComponent (hd [] (split 63 (str "/img/LOGO.PNG"))) = Some (str "/img/LOGO.PNG")
  /\ nulFree (filePathOf Sample.folder (str "/img/LOGO.PNG")) = true
  /\ Sample.disk (filePathOf Sample.folder (str "/img/LOGO.PNG")) = Some (list_byte_of_string "PNG")
  /\ In (str ".png", str "image/png") MIME
  /\ caseVariant (Path.extname (filePathOf Sample.folder (str "/img/LOGO.PNG"))) (str ".png") = true
  /\ requestListener Sample.unicodeLower Sample.disk Sample.folder (str "/img/LOGO.PNG")
     = Responded {| status := 200; headers := [(str "Content-Type", str "image/png")];
                    body := list_byte_of_string "PNG" |}.
Proof.
  assert (H1 : decodeURIComponent (hd [] (split 63 (str "/img/LOGO.PNG")))
               = Some (str "/img/LOGO.PNG")) by reflexivity.
  assert (H2 : nulFree (filePathOf Sample.folder (str "/img/LOGO.PNG")) = true) by reflexivity.
  assert (H3 : Sample.disk (filePathOf Sample.folder (str "/img/LOGO.PNG"))
               = Some (list_byte_of_string "PNG")) by reflexivity.
  assert (H4 : In (str ".png", str "image/png") MIME) by (simpl; tauto).
  assert (H5 : caseVariant (Path.extname (filePathOf Sample.folder (str "/img/LOGO.PNG")))
                 (str ".png") = true) by reflexivity.
  repeat (split; [assumption|]).
  exact (content_type_ignores_case Sample.unicodeLower Sample.disk Sample.folder
           _ _ _ _ _ H1 H2 H3 H4 H5).
Defined.

(** ** Computations and their traces *)

Lemma filesWritten_app t u : filesWritten (t ++ u) = filesWritten t ++ filesWritten u.
Proof.
  induction t as [|e t IH]; [reflexivity|].
  destruct e; simpl; rewrite IH; reflexivity.
Qed.

Lemma filesWritten_forward evs : filesWritten (map forward evs) = [].
Proof.
  induction evs as [|ev evs IH]; [reflexivity|].
  destruct ev as [type text| |]; simpl; try exact IH.
  destruct (eqb type (str "error")); [exact IH|].
  destruct (eqb type (str "warn")); exact IH.
Qed.

#[local] Hint Rewrite filesWritten_app filesWritten_forward : written.

Section RunFacts.

Variable w : World.

(** Lines 32-75 with server, browser and page in place: the run goes on
    with the render wait, whatever the navigation did. *)
Lemma main_setup :
  rejects w AtListen = None -> rejects w AtLaunch = None ->
  rejects w AtNewPage = None -> rejects w AtSetViewport = None ->
  exists pre,
    main w = (pre ++ fst (renderWait w), snd (renderWait w))
    /\ filesWritten pre = [].
Proof.
  intros H1 H2 H3 H4. unfold main. blocks. rewrite H1, H2, H3, H4.
  destruct (renderWait w) as [t c].
  destruct (rejects w AtGoto) as [e|]; compute_M; rewrite ?app_nil_r.
  - refine (ex_intro _ (_ :: _ :: _ :: _ :: _ :: _ :: _ :: _
                          :: map forward (emits w AtGoto) ++ [_]) _).
    split; [cbn [app]; rewrite <- ?app_assoc; reflexivity | files].
  - refine (ex_intro _ (_ :: _ :: _ :: _ :: _ :: _ :: _ :: _
                          :: map forward (emits w AtGoto)) _).
    split; [reflexivity | files].
Qed.

Lemma poll_finds pred (n k j : nat) :
  (k <= j < k + n)%nat -> pred (documentAtPoll w j) = true ->
  poll w pred k n = true.
Proof.
  revert k. induction n as [|n IH]; intros k Hj Hp; [lia|]. simpl.
  destruct (pred (documentAtPoll w k)) eqn:E; [reflexivity|].
  apply IH; [|assumption].
  destruct (Nat.eq_dec k j) as [->|Hne]; [congruence | lia].
Qed.

Lemma poll_misses pred (n k : nat) :
  (forall j, (k <= j < k + n)%nat -> pred (documentAtPoll w j) = false) ->
  poll w pred k n = false.
Proof.
  revert k. induction n as [|n IH]; intros k H; [reflexivity|]. simpl.
  rewrite (H k) by lia. apply IH. intros j Hj. apply H. lia.
Qed.

(** Lines 77-98 once the snapshot is there: the run goes on with the
    decision, taken on the flag and the snapshot. *)
Lemma renderWait_evaluated diagnostics :
  rejects w AtEvaluate = None ->
  diagnosticsOf (documentAtEvaluate w) = Some diagnostics ->
  exists pre,
    renderWait w = (pre ++ fst (decide w (timedOutFlag w) diagnostics),
                    snd (decide w (timedOutFlag w) diagnostics))
    /\ filesWritten pre = [].
Proof.
  intros He Hd. unfold renderWait, timedOutFlag, renderPolls. blocks.
  rewrite He, Hd.
  destruct (rejects w AtWait) as [e|];
    [|destruct (poll w cardsRendered 0 (N.to_nat (45000 / 500)))];
    cbv beta iota; cbn [negb]; compute_M;
    destruct (decide w _ diagnostics) as [t c];
    compute_M; rewrite ?app_nil_r;
    (refine (ex_intro _ (_ :: _ :: map forward (emits w AtWait)
                           ++ _ :: map forward (emits w AtEvaluate)) _);
     split; [cbn [app]; rewrite <- ?app_assoc; reflexivity | files]).
Qed.

(** Lines 100-118 on the failure branch. *)
Lemma decide_failure timedOut diagnostics :
  timedOut || (cardCount diagnostics =? 0) = true ->
  exists pre,
    decide w timedOut diagnostics
    = (pre ++ failureExplanation ++ BrowserClose :: map forward (emits w AtClose)
           ++ match rejects w AtClose with
              | None => [ServerClose]
              | Some _ => []
              end,
       match rejects w AtClose with
       | None => Exit 1
       | Some err => Throw err
       end)
    /\ filesWritten pre = [].
Proof.
  intros Hf. unfold decide, failureExplanation. blocks. rewrite Hf.
  destruct (rejects w AtClose) as [e|]; compute_M; rewrite ?app_nil_r;
    (refine (ex_intro _ [_; _; _; _; _; _; _; _] _); split; [reflexivity | files]).
Qed.

(** Lines 100-118 on the success branch: the run goes on with the
    capture. *)
Lemma decide_success diagnostics :
  (cardCount diagnostics =? 0) = false ->
  exists pre,
    decide w false diagnostics
    = (pre ++ fst (capture w diagnostics), snd (capture w diagnostics))
    /\ filesWritten pre = [].
Proof.
  intros Hf. unfold decide. blocks. cbn [orb]. rewrite Hf.
  destruct (capture w diagnostics) as [t c]. compute_M.
  refine (ex_intro _ [_; _; _; _; _; _; _; _] _). split; [reflexivity | files].
Qed.

(** Lines 120-140 when the capture and the tear-down succeed. *)
Lemma capture_succeeds diagnostics :
  rejects w AtPdf = None -> rejects w AtClose = None ->
  exists t,
    capture w diagnostics = (t, Normal tt)
    /\ filesWritten t = [outputPath w].
Proof.
  intros Hp Hc. unfold capture. blocks. rewrite Hp, Hc. compute_M.
  eexists. split; [reflexivity | files].
Qed.

End RunFacts.

Lemma rendered_clears_flag w : renderedInTime w -> timedOutFlag w = false.
Proof.
  intros [Hw [k [Hk Hp]]]. unfold timedOutFlag. rewrite Hw.
  rewrite (poll_finds w cardsRendered renderPolls 0 k); [reflexivity | lia | assumption].
Qed.

Lemma never_rendered_sets_flag w :
  (forall k, (k < renderPolls)%nat -> cardsRendered (documentAtPoll w k) = false) ->
  timedOutFlag w = true.
Proof.
  intros H. unfold timedOutFlag. destruct (rejects w AtWait); [reflexivity|].
  rewrite poll_misses; [reflexivity|]. intros j Hj. apply H. lia.
Qed.

(** ** The orchestrator *)

(** C2 (as amended).  For every run that reaches the navigation, in which
    the render-wait condition becomes true before its timeout, the
    diagnostics snapshot is taken with a positive content count, and the PDF
    capture and the browser close succeed: exactly one output file is
    written, at the fixed path, and the exit status is 0. *)
Theorem rendered_run_writes_pdf w diagnostics :
  reachesNavigation w -> renderedInTime w -> snapshot w diagnostics ->
  0 < cardCount diagnostics ->
  rejects w AtPdf = None -> rejects w AtClose = None ->
  filesWritten (trace (run w)) = [outputPath w] /\ exitStatus (run w) = 0.
Proof.
  intros (H1 & H2 & H3 & H4) Hr [He Hd] Hpos Hp Hc.
  destruct (main_setup w H1 H2 H3 H4) as (p1 & Em & F1).
  destruct (renderWait_evaluated w diagnostics He Hd) as (p2 & Er & F2).
  rewrite (rendered_clears_flag w Hr) in Er.
  assert (Hz : (cardCount diagnostics =? 0) = false) by (apply N.eqb_neq; lia).
  destruct (decide_success w diagnostics Hz) as (p3 & Ed & F3).
  destruct (capture_succeeds w diagnostics Hp Hc) as (t & Ec & Ft).
  unfold run. rewrite Em, Er, Ed, Ec. cbn [fst snd atExit trace exitStatus].
  split; [|reflexivity].
  rewrite !filesWritten_app, F1, F2, F3, Ft. reflexivity.
Qed.

Lemma rendered_run_writes_pdf_witness :
  reachesNavigation Sample.happy /\ renderedInTime Sample.happy
  /\ snapshot Sample.happy {| title := str "Expo"; cardCount := 3; pageCount := 2;
                              loadingText := str "(no #loading element)";
                              statusText := str "Loaded 3 exhibits";
                              bodySnippet := str "<div class='page'>  ...  </div>" |}
  /\ filesWritten (trace (run Sample.happy)) = [str "/srv/expo/expo_booklet.pdf"]
  /\ exitStatus (run Sample.happy) = 0.
Proof.
  assert (Hn : reachesNavigation Sample.happy) by (repeat split; reflexivity).
  assert (Hr : renderedInTime Sample.happy).
  { split; [reflexivity|]. exists 2%nat. split; [vm_compute; lia | reflexivity]. }
  assert (Hs : snapshot Sample.happy
                 {| title := str "Expo"; cardCount := 3; pageCount := 2;
                    loadingText := str "(no #loading element)";
                    statusText := str "Loaded 3 exhibits";
                    bodySnippet := str "<div class='page'>  ...  </div>" |})
    by (split; reflexivity).
  repeat (split; [assumption|]).
  exact (rendered_run_writes_pdf Sample.happy _ Hn Hr Hs eq_refl eq_refl eq_refl).
Defined.

(** C2 as stated fails: the cards are rendered in time and counted, and the
    run still ends with status 1, without a file when [page.pdf] rejects and
    with one when [browser.close] rejects. *)
Lemma rendered_run_may_exit_1 :
  renderedInTime Sample.pdfFails
  /\ (exists diagnostics, snapshot Sample.pdfFails diagnostics /\ 0 < cardCount diagnostics)
  /\ exitStatus (run Sample.pdfFails) = 1
  /\ filesWritten (trace (run Sample.pdfFails)) = []
  /\ renderedInTime (withOutcome AtClose (Some (Sample.failure "Target closed")) Sample.happy)
  /\ exitStatus (run (withOutcome AtClose (Some (Sample.failure "Target closed")) Sample.happy)) = 1.
Proof.
  assert (Hr : forall w, rejects w AtWait = None ->
                 cardsRendered (documentAtPoll w 2) = true -> renderedInTime w).
  { intros w Hw Hp. split; [exact Hw|]. exists 2%nat. split; [vm_compute; lia | exact Hp]. }
  split; [apply Hr; reflexivity|].
  split; [eexists; split; [split; reflexivity | reflexivity]|].
  split; [reflexivity|]. split; [reflexivity|].
  split; [apply Hr; reflexivity | reflexivity].
Qed.

(** C3 (as amended).  For every run that reaches the navigation and takes
    the diagnostics snapshot, in which the timed-out flag is set or the
    snapshot counts zero cards: the failure explanation is printed,
    [browser.close] is called, the exit status is 1 and no output file is
    written; the server is stopped when [browser.close] succeeds. *)
Theorem failed_render_exits_1 w diagnostics :
  reachesNavigation w -> snapshot w diagnostics ->
  timedOutFlag w = true \/ cardCount diagnostics = 0 ->
  exists pre,
    trace (run w)
    = pre ++ failureExplanation ++ BrowserClose :: map forward (emits w AtClose)
          ++ [match rejects w AtClose with
              | None => ServerClose
              | Some err => ConsoleError [Str (Glyph.cross ++ str " Unexpected error:");
                                          Str (message err)]
              end]
    /\ exitStatus (run w) = 1
    /\ filesWritten (trace (run w)) = [].
Proof.
  intros (H1 & H2 & H3 & H4) [He Hd] Hfail.
  destruct (main_setup w H1 H2 H3 H4) as (p1 & Em & F1).
  destruct (renderWait_evaluated w diagnostics He Hd) as (p2 & Er & F2).
  assert (Hf : timedOutFlag w || (cardCount diagnostics =? 0) = true).
  { destruct Hfail as [-> | ->]; [reflexivity | apply orb_true_r]. }
  destruct (decide_failure w _ diagnostics Hf) as (p3 & Ed & F3).
  unfold run. rewrite Em, Er, Ed. cbn [fst snd].
  exists (p1 ++ p2 ++ p3).
  destruct (rejects w AtClose) as [err|]; cbn [atExit trace exitStatus];
    (split; [rewrite ?app_nil_r;
             repeat (rewrite <- app_assoc || rewrite <- app_comm_cons); reflexivity|]);
    (split; [reflexivity|]);
    rewrite !filesWritten_app, F1, F2, F3; files.
Qed.

Lemma failed_render_exits_1_witness :
  reachesNavigation Sample.empty
  /\ (exists diagnostics, snapshot Sample.empty diagnostics /\ cardCount diagnostics = 0)
  /\ timedOutFlag Sample.empty = true
  /\ exists pre,
       trace (run Sample.empty) = pre ++ failureExplanation ++ [BrowserClose; ServerClose]
       /\ exitStatus (run Sample.empty) = 1
       /\ filesWritten (trace (run Sample.empty)) = [].
Proof.
  assert (Hn : reachesNavigation Sample.empty) by (repeat split; reflexivity).
  assert (Hs : snapshot Sample.empty
                 {| title := str "Expo"; cardCount := 0; pageCount := 0;
                    loadingText := str "Loading...";
                    statusText := str "(no #status element)";
                    bodySnippet := str "<div id='loading'>Loading...</div>" |})
    by (split; reflexivity).
  assert (Hf : timedOutFlag Sample.empty = true) by reflexivity.
  split; [exact Hn|]. split; [eexists; split; [exact Hs | reflexivity]|].
  split; [exact Hf|].
  exact (failed_render_exits_1 Sample.empty _ Hn Hs (or_introl Hf)).
Defined.

(** C3 as stated fails: with the flag set, a rejected [browser.close] leaves
    the server running, and a snapshot that cannot be taken leaves the
    failure explanation unprinted and the browser open. *)
Lemma failed_render_may_skip_cleanup :
  timedOutFlag Sample.closeFails = true
  /\ existsb isBrowserClose (trace (run Sample.closeFails)) = true
  /\ existsb isServerClose (trace (run Sample.closeFails)) = false
  /\ timedOutFlag Sample.stuck = true
  /\ existsb isBrowserClose (trace (run Sample.stuck)) = false
  /\ existsb isServerClose (trace (run Sample.stuck)) = false
  /\ (forall e, In e failureExplanation -> ~ In e (trace (run Sample.stuck)))
  /\ exitStatus (run Sample.stuck) = 1.
Proof.
  repeat (split; [reflexivity|]). split; [|reflexivity].
  intros e He Hin. vm_compute in He, Hin.
  repeat (destruct He as [He|He]; [subst e; intuition discriminate|]).
  exact He.
Qed.

(** X19.  Whenever [puppeteer.launch] rejects, the run ends in the top-level
    handler with the server still listening. *)
Lemma launch_failure_leaves_server_open w err :
  rejects w AtListen = None -> rejects w AtLaunch = Some err ->
  existsb isListen (trace (run w)) = true
  /\ existsb isServerClose (trace (run w)) = false
  /\ exitStatus (run w) = 1.
Proof.
  intros H1 H2. unfold run, main. blocks. rewrite H1, H2. compute_M.
  repeat split.
Qed.

(** C4.  The exception path does not release what the run holds: when
    [puppeteer.launch] rejects, the server that was started is never
    closed; when [page.pdf] rejects, neither the browser nor the server is.
    Both runs end with status 1 through the top-level handler. *)
Theorem exception_path_skips_cleanup :
  existsb isListen (trace (run Sample.noChrome)) = true
  /\ existsb isServerClose (trace (run Sample.noChrome)) = false
  /\ exitStatus (run Sample.noChrome) = 1
  /\ existsb isLaunch (trace (run Sample.pdfFails)) = true
  /\ existsb isBrowserClose (trace (run Sample.pdfFails)) = false
  /\ existsb isServerClose (trace (run Sample.pdfFails)) = false
  /\ exitStatus (run Sample.pdfFails) = 1.
Proof. repeat split; reflexivity. Qed.

(** C5.  When the server cannot start, [startServer] rejects with the
    cause (it does not crash), the run reports the cause and exits with
    status 1, and the browser is never launched. *)
Theorem server_start_failure_exits_1 w err :
  rejects w AtListen = Some err ->
  snd (startServer w (__dirname w) PORT) = Throw err
  /\ run w
     = {| trace :=
            [ ConsoleLog [Str (Glyph.globe ++ str " Starting local file server on port");
                          Num PORT; Str (str "...")];
              Listen (__dirname w) PORT (str "127.0.0.1");
              ConsoleError [Str (Glyph.cross ++ str " Could not start server on port "
                                 ++ ofNum PORT ++ str ": " ++ message err)] ];
          exitStatus := 1 |}
  /\ existsb isLaunch (trace (run w)) = false.
Proof.
  intros H.
  assert (Hs : snd (startServer w (__dirname w) PORT) = Throw err).
  { unfold startServer. blocks. rewrite H. reflexivity. }
  assert (Hr : run w
     = {| trace :=
            [ ConsoleLog [Str (Glyph.globe ++ str " Starting local file server on port");
                          Num PORT; Str (str "...")];
              Listen (__dirname w) PORT (str "127.0.0.1");
              ConsoleError [Str (Glyph.cross ++ str " Could not start server on port "
                                 ++ ofNum PORT ++ str ": " ++ message err)] ];
          exitStatus := 1 |}).
  { unfold run, main. blocks. rewrite H. reflexivity. }
  split; [exact Hs|]. split; [exact Hr|]. rewrite Hr. reflexivity.
Qed.

Lemma server_start_failure_exits_1_witness :
  rejects Sample.portTaken AtListen
  = Some (Sample.failure "listen EADDRINUSE: address already in use 127.0.0.1:3179")
  /\ exitStatus (run Sample.portTaken) = 1
  /\ existsb isLaunch (trace (run Sample.portTaken)) = false.
Proof.
  assert (H : rejects Sample.portTaken AtListen
              = Some (Sample.failure "listen EADDRINUSE: address already in use 127.0.0.1:3179"))
    by reflexivity.
  destruct (server_start_failure_exits_1 Sample.portTaken _ H) as (_ & Hr & Hl).
  split; [exact H|]. split; [rewrite Hr; reflexivity | exact Hl].
Defined.

(** The render wait opens with its announcement and the call of
    [waitForFunction], however it ends. *)
Lemma renderWait_starts w : exists post, fst (renderWait w) = renderWaitStart ++ post.
Proof.
  unfold renderWait, renderWaitStart. blocks.
  destruct (rejects w AtWait) as [e|];
    [|destruct (poll w cardsRendered 0 (N.to_nat (45000 / 500)))];
    (destruct (rejects w AtEvaluate) as [e'|];
     [|destruct (diagnosticsOf (documentAtEvaluate w)) as [diagnostics|]]);
    compute_M; try (destruct (decide w _ diagnostics) as [t c]; compute_M);
    eexists; reflexivity.
Qed.

(** What happens after the navigation does not depend on how it ended. *)
Lemma renderWait_after_goto w o : renderWait (withOutcome AtGoto o w) = renderWait w.
Proof. reflexivity. Qed.

(** C7.  A rejected navigation wait is not fatal: the run logs the note and
    goes on with the render wait, and it then does, effect for effect, what
    the same run does when the navigation resolves; in particular the two
    end with the same exit status. *)
Theorem navigation_timeout_not_fatal w err :
  reachesNavigation w -> rejects w AtGoto = Some err ->
  exists pre post,
    trace (run w) = pre ++ navigationTimeoutNote :: renderWaitStart ++ post
    /\ trace (run (withOutcome AtGoto None w)) = pre ++ renderWaitStart ++ post
    /\ exitStatus (run w) = exitStatus (run (withOutcome AtGoto None w)).
Proof.
  intros (H1 & H2 & H3 & H4) Hg.
  assert (Hm : exists pre,
             main w = (pre ++ navigationTimeoutNote :: fst (renderWait w),
                       snd (renderWait w))
             /\ main (withOutcome AtGoto None w)
                = (pre ++ fst (renderWait w), snd (renderWait w))).
  { unfold main. rewrite renderWait_after_goto. blocks.
    cbn [rejects emits __dirname withOutcome step_eqb].
    rewrite H1, H2, H3, H4, Hg. destruct (renderWait w) as [t c].
    compute_M. rewrite ?app_nil_r.
    refine (ex_intro _ (_ :: _ :: _ :: _ :: _ :: _ :: _ :: _
                          :: map forward (emits w AtGoto)) _).
    split; cbn [app]; rewrite <- ?app_assoc; reflexivity. }
  destruct Hm as (pre & Em & Em').
  destruct (renderWait_starts w) as [post Hpost].
  unfold run. rewrite Em, Em'.
  change (pre ++ navigationTimeoutNote :: fst (renderWait w))
    with (pre ++ [navigationTimeoutNote] ++ fst (renderWait w)).
  destruct (renderWait w) as [t c]. cbn [fst snd] in *. subst t.
  destruct c as [[]|e|code]; cbn [atExit trace exitStatus].
  - exists pre, post. repeat split.
  - exists pre, (post ++ [ConsoleError [Str (Glyph.cross ++ str " Unexpected error:");
                                      Str (message e)]]).
    repeat split; cbn [app]; rewrite <- ?app_assoc; reflexivity.
  - exists pre, post. repeat split.
Qed.

Lemma navigation_timeout_not_fatal_witness :
  reachesNavigation Sample.slowSheet
  /\ rejects Sample.slowSheet AtGoto
     = Some (Sample.failure "Navigation timeout of 60000 ms exceeded")
  /\ exists pre post,
       trace (run Sample.slowSheet) = pre ++ navigationTimeoutNote :: renderWaitStart ++ post
       /\ trace (run (withOutcome AtGoto None Sample.slowSheet)) = pre ++ renderWaitStart ++ post
       /\ exitStatus (run Sample.slowSheet)
          = exitStatus (run (withOutcome AtGoto None Sample.slowSheet)).
Proof.
  assert (Hn : reachesNavigation Sample.slowSheet) by (repeat split; reflexivity).
  assert (Hg : rejects Sample.slowSheet AtGoto
               = Some (Sample.failure "Navigation timeout of 60000 ms exceeded"))
    by reflexivity.
  split; [exact Hn|]. split; [exact Hg|].
  exact (navigation_timeout_not_fatal Sample.slowSheet _ Hn Hg).
Defined.

(** C8 (as amended).  For every document that has a body the diagnostics
    callback returns a snapshot; the field of an absent status element is
    its placeholder, and neither field is ever empty. *)
Theorem diagnostics_with_placeholders doc innerHTML :
  Dom.body doc = Some innerHTML ->
  exists diagnostics,
    diagnosticsOf doc = Some diagnostics
    /\ (Dom.loading doc = None -> loadingText diagnostics = str "(no #loading element)")
    /\ (Dom.status doc = None -> statusText diagnostics = str "(no #status element)")
    /\ loadingText diagnostics <> []
    /\ statusText diagnostics <> [].
Proof.
  intros Hb. unfold diagnosticsOf. rewrite Hb. eexists. split; [reflexivity|].
  cbn [loadingText statusText]. repeat split.
  - intros ->. reflexivity.
  - intros ->. reflexivity.
  - destruct (Dom.loading doc) as [[|c s]|]; discriminate.
  - destruct (Dom.status doc) as [[|c s]|]; discriminate.
Qed.

Lemma diagnostics_with_placeholders_witness :
  Dom.body Sample.blank = Some (str "<div id='loading'>Loading...</div>")
  /\ exists diagnostics,
       diagnosticsOf Sample.blank = Some diagnostics
       /\ (Dom.loading Sample.blank = None -> loadingText diagnostics = str "(no #loading element)")
       /\ (Dom.status Sample.blank = None -> statusText diagnostics = str "(no #status element)")
       /\ loadingText diagnostics <> []
       /\ statusText diagnostics <> [].
Proof.
  assert (Hb : Dom.body Sample.blank = Some (str "<div id='loading'>Loading...</div>"))
    by reflexivity.
  split; [exact Hb|].
  exact (diagnostics_with_placeholders Sample.blank _ Hb).
Defined.

(** C8 as stated fails: on a document without a body the callback throws,
    no snapshot is produced and [page.evaluate] rejects. *)
Lemma diagnostics_may_throw :
  diagnosticsOf Sample.bodyless = None
  /\ snd (evaluate Sample.stuck) = Throw (evaluateError Sample.stuck)
  /\ ~ (forall doc, exists diagnostics, diagnosticsOf doc = Some diagnostics).
Proof.
  split; [reflexivity|]. split; [reflexivity|].
  intros H. destruct (H Sample.bodyless) as [diagnostics Hd]. discriminate Hd.
Qed.

(** ** More on the request listener *)

Lemma eqb_neq (a b : jsstring) : eqb a b = false <-> a <> b.
Proof.
  split.
  - intros H E. apply eqb_eq in E. congruence.
  - intros H. destruct (eqb a b) eqn:E; [|reflexivity].
    apply eqb_eq in E. contradiction.
Qed.

Lemma split_whole sep (s : jsstring) :
  forallb (fun c => negb (c =? sep)) s = true -> split sep s = [s].
Proof.
  induction s as [|c s IH]; [reflexivity|]. simpl. intros H.
  apply andb_true_iff in H as [Hc Hs]. apply negb_true_iff in Hc.
  now rewrite Hc, (IH Hs).
Qed.

Lemma plainSegment_inv seg :
  plainSegment seg = true ->
  seg <> [] /\ eqb seg [Path.DOT] = false /\ eqb seg [Path.DOT; Path.DOT] = false
  /\ forallb (fun c => negb (c =? Path.SLASH)) seg = true.
Proof.
  unfold plainSegment. intros H.
  apply andb_true_iff in H as [H H4]. apply andb_true_iff in H as [H H3].
  apply andb_true_iff in H as [H1 H2].
  apply negb_true_iff in H1, H2, H3. apply eqb_neq in H1. auto.
Qed.

Lemma join_plain_nonempty (segs : list jsstring) :
  segs <> [] -> Forall (fun s => plainSegment s = true) segs ->
  Js.join [Path.SLASH] segs <> [].
Proof.
  intros Hne Hp. destruct segs as [|s segs]; [congruence|].
  apply Forall_inv in Hp. apply plainSegment_inv in Hp as (Hs & _).
  destruct s as [|c s]; [congruence|]. destruct segs; discriminate.
Qed.

(** Splitting undoes joining, for segments without a separator. *)
Lemma split_join (segs : list jsstring) :
  segs <> [] -> Forall (fun s => plainSegment s = true) segs ->
  split Path.SLASH (Js.join [Path.SLASH] segs) = segs.
Proof.
  induction segs as [|s segs IH]; [congruence|]. intros _ Hp.
  pose proof (Forall_inv Hp) as Hs. apply Forall_inv_tail in Hp.
  apply plainSegment_inv in Hs as (_ & _ & _ & Hs).
  destruct segs as [|q segs]; [now apply split_whole|].
  rewrite join_cons. change ([Path.SLASH] ++ ?x) with (Path.SLASH :: x).
  rewrite split_app, (split_whole _ _ Hs), IH; [reflexivity | discriminate | assumption].
Qed.

Lemma endsWithSlash_join (segs : list jsstring) :
  segs <> [] -> Forall (fun s => plainSegment s = true) segs ->
  Path.endsWithSlash (Js.join [Path.SLASH] segs) = false.
Proof.
  induction segs as [|s segs IH]; [congruence|]. intros _ Hp.
  pose proof (Forall_inv Hp) as Hs. apply Forall_inv_tail in Hp.
  destruct segs as [|q segs].
  - apply plainSegment_inv in Hs as (Hne & _ & _ & Hs). simpl Js.join.
    unfold Path.endsWithSlash, Path.startsWithSlash.
    destruct (rev s) as [|c r] eqn:E; [reflexivity|].
    assert (Hin : In c s) by (apply in_rev; rewrite E; now left).
    rewrite forallb_forall in Hs. apply Hs in Hin. now apply negb_true_iff in Hin.
  - rewrite join_cons, app_assoc, endsWithSlash_app.
    + apply IH; [discriminate | assumption].
    + apply join_plain_nonempty; [discriminate | assumption].
Qed.

(** [normalizeString] keeps plain segments. *)
Lemma normalize_keeps_plain allow (segs kept : list jsstring) :
  Forall (fun s => plainSegment s = true) segs ->
  fold_left (Path.normalizeStep allow) segs kept = rev segs ++ kept.
Proof.
  revert kept. induction segs as [|s segs IH]; intros kept Hp; [reflexivity|].
  pose proof (Forall_inv Hp) as Hs. apply Forall_inv_tail in Hp.
  apply plainSegment_inv in Hs as (Hne & H1 & H2 & _). apply eqb_neq in Hne.
  simpl fold_left. unfold Path.normalizeStep at 2. rewrite Hne, H1, H2. simpl orb.
  cbv iota. rewrite (IH _ Hp). simpl rev. now rewrite <- app_assoc.
Qed.

(** Below the root of an absolute path, each [..] drops one kept segment
    and is itself dropped when none is left. *)
Lemma normalize_climbs (k : nat) (kept : list jsstring) :
  Forall (fun s => plainSegment s = true) kept ->
  fold_left (Path.normalizeStep false) (repeat [Path.DOT; Path.DOT] k) kept
  = skipn k kept.
Proof.
  revert kept. induction k as [|k IH]; intros kept Hp; [reflexivity|].
  simpl repeat. simpl fold_left. destruct kept as [|last before].
  - change (Path.normalizeStep false [] [Path.DOT; Path.DOT]) with (@nil jsstring).
    rewrite (IH [] Hp). now destruct k.
  - pose proof (Forall_inv Hp) as Hs. apply Forall_inv_tail in Hp.
    apply plainSegment_inv in Hs as (_ & _ & H2 & _).
    replace (Path.normalizeStep false (last :: before) [Path.DOT; Path.DOT])
      with before by (unfold Path.normalizeStep; simpl; now rewrite H2).
    now rewrite (IH _ Hp).
Qed.

Lemma split_climb (k : nat) (rest : jsstring) :
  split Path.SLASH (climb k ++ Path.SLASH :: rest)
  = [] :: repeat [Path.DOT; Path.DOT] k ++ split Path.SLASH rest.
Proof.
  induction k as [|k IH]; [reflexivity|].
  unfold Path.SLASH, Path.DOT in *. simpl. simpl in IH. rewrite IH. reflexivity.
Qed.

Lemma fold_normalize_root allow (rootSegs : list jsstring) :
  Forall (fun s => plainSegment s = true) rootSegs ->
  fold_left (Path.normalizeStep allow)
            (split Path.SLASH (Js.join [Path.SLASH] rootSegs)) []
  = rev rootSegs.
Proof.
  intros Hp. destruct rootSegs as [|s segs]; [reflexivity|].
  rewrite split_join by (discriminate || assumption).
  rewrite normalize_keeps_plain by assumption. apply app_nil_r.
Qed.

(** The file a request designates, for a root made of plain segments and a
    URL path that climbs [k] levels and then names plain segments: the
    climbs remove the last [k] segments of the root, as many as there
    are. *)
Lemma filePathOf_climb (rootSegs targets : list jsstring) (k : nat) :
  Forall (fun s => plainSegment s = true) rootSegs ->
  Forall (fun s => plainSegment s = true) targets ->
  targets <> [] ->
  filePathOf (absolutePath rootSegs) (climb k ++ absolutePath targets)
  = absolutePath (firstn (List.length rootSegs - k) rootSegs ++ targets).
Proof.
  intros Hr Ht Hne.
  pose proof (join_plain_nonempty targets Hne Ht) as Hj.
  assert (Hu : exists u, climb k ++ absolutePath targets = Path.SLASH :: u
                         /\ u <> []).
  { destruct k; unfold absolutePath; simpl; eexists; split; try reflexivity;
      [assumption | discriminate]. }
  destruct Hu as (u & Eu & Hu).
  unfold filePathOf.
  replace (eqb (climb k ++ absolutePath targets) (str "/")) with false
    by (rewrite Eu; destruct u; [congruence | reflexivity]).
  unfold Path.join. rewrite Eu. unfold absolutePath at 1.
  cbn [fold_left Path.joinStep]. rewrite <- Eu.
  set (J := Js.join [Path.SLASH] rootSegs).
  change ((Path.SLASH :: J) ++ [Path.SLASH] ++ climb k ++ absolutePath targets)
    with (Path.SLASH :: (J ++ Path.SLASH :: climb k ++ absolutePath targets)).
  unfold Path.normalize.
  assert (He : Path.endsWithSlash
                 (Path.SLASH :: J ++ Path.SLASH :: climb k ++ absolutePath targets)
               = false).
  { unfold absolutePath.
    replace (Path.SLASH :: J ++ Path.SLASH :: climb k
               ++ Path.SLASH :: Js.join [Path.SLASH] targets)
      with ((Path.SLASH :: J ++ Path.SLASH :: climb k ++ [Path.SLASH])
              ++ Js.join [Path.SLASH] targets)
      by (simpl; rewrite <- !app_assoc; simpl; rewrite <- !app_assoc; reflexivity).
    rewrite endsWithSlash_app by assumption. now apply endsWithSlash_join. }
  rewrite He. cbn [Path.startsWithSlash negb]. rewrite N.eqb_refl. cbn [negb].
  assert (Hn : Path.normalizeString
                 (Path.SLASH :: J ++ Path.SLASH :: climb k ++ absolutePath targets) false
               = Js.join [Path.SLASH]
                   (firstn (List.length rootSegs - k) rootSegs ++ targets)).
  { unfold Path.normalizeString.
    change (split Path.SLASH (Path.SLASH :: ?x)) with ([] :: split Path.SLASH x).
    rewrite normalize_skips_empty, split_app, fold_left_app.
    unfold J. rewrite fold_normalize_root by assumption.
    unfold absolutePath. rewrite split_climb, normalize_skips_empty, fold_left_app.
    rewrite normalize_climbs by (now apply Forall_rev).
    rewrite split_join, normalize_keeps_plain by assumption.
    rewrite rev_app_distr, rev_involutive, skipn_rev, rev_involutive. reflexivity. }
  rewrite Hn. unfold absolutePath.
  destruct (Js.join [Path.SLASH] (firstn _ rootSegs ++ targets)); reflexivity.
Qed.

(** A URL without escape and without query is used as it is. *)
Lemma requestListener_literal unicodeLower (d : Fs.disk) folder url :
  literalUrl url = true ->
  nulFree (filePathOf folder url) = true ->
  requestListener unicodeLower d folder url
  = match d (filePathOf folder url) with
    | Some data =>
        Responded {| status := 200;
                     headers := [(str "Content-Type",
                                  mimeOf unicodeLower (filePathOf folder url))];
                     body := data |}
    | None =>
        Responded {| status := 404; headers := [];
                     body := list_byte_of_string "Not found" |}
    end.
Proof.
  intros Hl Hn. unfold literalUrl in Hl.
  assert (H37 : forallb (fun c => negb (c =? 37)) url = true).
  { apply forallb_forall. intros c Hc. rewrite forallb_forall in Hl.
    apply Hl in Hc. now apply andb_true_iff in Hc as [Hc _]. }
  assert (H63 : forallb (fun c => negb (c =? 63)) url = true).
  { apply forallb_forall. intros c Hc. rewrite forallb_forall in Hl.
    apply Hl in Hc. now apply andb_true_iff in Hc as [_ Hc]. }
  unfold requestListener, Fs.readFile.
  rewrite (split_whole 63 url H63). cbn [hd].
  rewrite (decodeURIComponent_plain url H37).
  unfold nulFree in Hn. apply negb_true_iff in Hn. rewrite Hn.
  destruct (d (filePathOf folder url)); reflexivity.
Qed.

(** X1.  Files are served from under the root: for a root made of plain
    segments and a literal URL made of plain segments, the listener answers
    from the file whose path is the root's segments followed by the URL's,
    with 200 and its bytes when it is readable and 404 otherwise. *)
Theorem plain_request_reads_under_root unicodeLower (d : Fs.disk)
  (rootSegs urlSegs : list jsstring) :
  Forall (fun s => plainSegment s = true) rootSegs ->
  Forall (fun s => plainSegment s = true) urlSegs ->
  urlSegs <> [] ->
  literalUrl (absolutePath urlSegs) = true ->
  nulFree (absolutePath (rootSegs ++ urlSegs)) = true ->
  requestListener unicodeLower d (absolutePath rootSegs) (absolutePath urlSegs)
  = match d (absolutePath (rootSegs ++ urlSegs)) with
    | Some data =>
        Responded {| status := 200;
                     headers := [(str "Content-Type",
                                  mimeOf unicodeLower (absolutePath (rootSegs ++ urlSegs)))];
                     body := data |}
    | None =>
        Responded {| status := 404; headers := [];
                     body := list_byte_of_string "Not found" |}
    end.
Proof.
  intros Hr Hu Hne Hl Hn.
  pose proof (filePathOf_climb rootSegs urlSegs 0 Hr Hu Hne) as Hp.
  rewrite Nat.sub_0_r, firstn_all in Hp. cbn [climb app] in Hp.
  rewrite requestListener_literal;
    [rewrite Hp; reflexivity | assumption | rewrite Hp; assumption].
Qed.

Lemma plain_request_reads_under_root_witness :
  Forall (fun s => plainSegment s = true) [str "srv"; str "expo"]
  /\ Forall (fun s => plainSegment s = true) [str "img"; str "LOGO.PNG"]
  /\ literalUrl (absolutePath [str "img"; str "LOGO.PNG"]) = true
  /\ nulFree (absolutePath ([str "srv"; str "expo"] ++ [str "img"; str "LOGO.PNG"])) = true
  /\ requestListener Sample.unicodeLower Sample.disk (str "/srv/expo") (str "/img/LOGO.PNG")
     = Responded {| status := 200;
                    headers := [(str "Content-Type", str "image/png")];
                    body := list_byte_of_string "PNG" |}.
Proof.
  assert (H1 : Forall (fun s => plainSegment s = true) [str "srv"; str "expo"])
    by (repeat constructor).
  assert (H2 : Forall (fun s => plainSegment s = true) [str "img"; str "LOGO.PNG"])
    by (repeat constructor).
  assert (H3 : [str "img"; str "LOGO.PNG"] <> []) by discriminate.
  assert (H4 : literalUrl (absolutePath [str "img"; str "LOGO.PNG"]) = true) by reflexivity.
  assert (H5 : nulFree (absolutePath ([str "srv"; str "expo"] ++ [str "img"; str "LOGO.PNG"]))
               = true) by reflexivity.
  repeat (split; [assumption|]).
  exact (plain_request_reads_under_root Sample.unicodeLower Sample.disk _ _ H1 H2 H3 H4 H5).
Defined.

(** X2.  The root does not confine the listener: a literal URL that climbs
    at least as many levels as the root has segments designates the file
    named after the climbs, from the top of the file system, whatever the
    root is. *)
Theorem climbing_request_leaves_root unicodeLower (d : Fs.disk)
  (rootSegs targets : list jsstring) (k : nat) :
  Forall (fun s => plainSegment s = true) rootSegs ->
  Forall (fun s => plainSegment s = true) targets ->
  targets <> [] ->
  (List.length rootSegs <= k)%nat ->
  literalUrl (climb k ++ absolutePath targets) = true ->
  nulFree (absolutePath targets) = true ->
  requestListener unicodeLower d (absolutePath rootSegs) (climb k ++ absolutePath targets)
  = match d (absolutePath targets) with
    | Some data =>
        Responded {| status := 200;
                     headers := [(str "Content-Type",
                                  mimeOf unicodeLower (absolutePath targets))];
                     body := data |}
    | None =>
        Responded {| status := 404; headers := [];
                     body := list_byte_of_string "Not found" |}
    end.
Proof.
  intros Hr Ht Hne Hk Hl Hn.
  pose proof (filePathOf_climb rootSegs targets k Hr Ht Hne) as Hp.
  replace (List.length rootSegs - k)%nat with 0%nat in Hp by lia.
  cbn [firstn app] in Hp.
  rewrite requestListener_literal;
    [rewrite Hp; reflexivity | assumption | rewrite Hp; assumption].
Qed.

Lemma climbing_request_leaves_root_witness :
  Forall (fun s => plainSegment s = true) [str "srv"; str "expo"]
  /\ Forall (fun s => plainSegment s = true) [str "etc"; str "passwd"]
  /\ (List.length [str "srv"; str "expo"] <= 2)%nat
  /\ literalUrl (climb 2 ++ absolutePath [str "etc"; str "passwd"]) = true
  /\ nulFree (absolutePath [str "etc"; str "passwd"]) = true
  /\ requestListener Sample.unicodeLower hostDisk (str "/srv/expo") (str "/../../etc/passwd")
     = Responded {| status := 200;
                    headers := [(str "Content-Type", str "application/octet-stream")];
                    body := list_byte_of_string "root:x:0:0" |}.
Proof.
  assert (H1 : Forall (fun s => plainSegment s = true) [str "srv"; str "expo"])
    by (repeat constructor).
  assert (H2 : Forall (fun s => plainSegment s = true) [str "etc"; str "passwd"])
    by (repeat constructor).
  assert (H3 : [str "etc"; str "passwd"] <> []) by discriminate.
  assert (H4 : (List.length [str "srv"; str "expo"] <= 2)%nat) by (simpl; lia).
  assert (H5 : literalUrl (climb 2 ++ absolutePath [str "etc"; str "passwd"]) = true)
    by reflexivity.
  assert (H6 : nulFree (absolutePath [str "etc"; str "passwd"]) = true) by reflexivity.
  repeat (split; [assumption|]).
  exact (climbing_request_leaves_root Sample.unicodeLower hostDisk _ _ 2 H1 H2 H3 H4 H5 H6).
Defined.

(** X3.  The listener sends nothing but a bare 404 with the body
    [Not found], or a 200 whose only header is a Content-Type taken from
    the extension table or the generic binary type. *)
Theorem response_shape unicodeLower (d : Fs.disk) folder url r :
  requestListener unicodeLower d folder url = Responded r ->
  (status r = 404 /\ headers r = []
   /\ body r = list_byte_of_string "Not found")
  \/ (status r = 200
      /\ exists mime, headers r = [(str "Content-Type", mime)]
                      /\ In mime contentTypes).
Proof.
  unfold requestListener. destruct (decodeURIComponent _) as [urlPath|]; [|discriminate].
  destruct (Fs.readFile d _) as [| |data]; [discriminate | |];
    intros H; injection H as <-; [left; repeat split | right].
  split; [reflexivity|]. eexists. split; [reflexivity|].
  unfold mimeOf, orElse, contentTypes. apply in_or_app.
  destruct (getProp MIME _) as [v|] eqn:E; [|right; now left].
  destruct (truthy v); [left | right; now left].
  apply getProp_In in E. now apply (in_map snd) in E.
Qed.

Lemma response_shape_witness :
  requestListener Sample.unicodeLower Sample.disk Sample.folder (str "/booklet.html")
  = Responded {| status := 200; headers := [(str "Content-Type", str "text/html")];
                 body := list_byte_of_string "<html>expo</html>" |}
  /\ In (str "text/html") contentTypes.
Proof.
  assert (H : requestListener Sample.unicodeLower Sample.disk Sample.folder
                (str "/booklet.html")
              = Responded {| status := 200;
                             headers := [(str "Content-Type", str "text/html")];
                             body := list_byte_of_string "<html>expo</html>" |})
    by reflexivity.
  split; [exact H|].
  destruct (response_shape _ _ _ _ _ H) as [(H404 & _) | (_ & mime & Hh & Hin)].
  - discriminate H404.
  - injection Hh as <-. exact Hin.
Defined.

Lemma query_is_ignored_witness :
  forallb (fun c => negb (c =? 63)) (str "/booklet.html") = true
  /\ requestListener Sample.unicodeLower Sample.disk Sample.folder
       (str "/booklet.html" ++ 63 :: str "v=2&x=%")
     = requestListener Sample.unicodeLower Sample.disk Sample.folder (str "/booklet.html").
Proof.
  assert (H : forallb (fun c => negb (c =? 63)) (str "/booklet.html") = true) by reflexivity.
  split; [exact H|].
  exact (query_is_ignored Sample.unicodeLower Sample.disk Sample.folder _ _ H).
Defined.

Lemma decodeURIComponent_literal_prefix (a rest : jsstring) :
  forallb (fun c => negb (c =? 37)) a = true ->
  decodeURIComponent (a ++ rest) = option_map (app a) (decodeURIComponent rest).
Proof.
  induction a as [|c a IH]; intros H.
  - cbn [app]. destruct (decodeURIComponent rest); reflexivity.
  - cbn [forallb] in H. apply andb_true_iff in H as [Hc Ha].
    cbn [app decodeURIComponent]. rewrite Hc, (IH Ha).
    destruct (decodeURIComponent rest); reflexivity.
Qed.

Lemma hexval_digit c v : hexval c = Some v -> c <> 37 /\ c <> 63.
Proof.
  unfold hexval.
  destruct ((48 <=? c) && (c <=? 57)) eqn:E1;
    [|destruct ((65 <=? c) && (c <=? 70)) eqn:E2;
      [|destruct ((97 <=? c) && (c <=? 102)) eqn:E3; [|discriminate]]];
    intros _;
    match goal with
    | H : _ && _ = true |- _ =>
        apply andb_true_iff in H as [Hl Hu]; apply N.leb_le in Hl, Hu; lia
    end.
Qed.

Lemma literalUrl_inv url :
  literalUrl url = true ->
  forallb (fun c => negb (c =? 37)) url = true
  /\ forallb (fun c => negb (c =? 63)) url = true.
Proof.
  unfold literalUrl. intros Hl. rewrite forallb_forall in Hl.
  split; apply forallb_forall; intros c Hc; apply Hl in Hc;
    now apply andb_true_iff in Hc.
Qed.

(** X4.  An escaped ASCII character stands for the character: between
    literal text, [%XY] designates the same file, and gets the same
    response, as the character it encodes, unless that character is [%]
    or [?]. *)
Theorem escaped_character_is_the_character unicodeLower (d : Fs.disk) folder
  (a b : jsstring) (h l c : N) :
  literalUrl a = true -> literalUrl b = true ->
  hexByte h l = Some c -> c < 128 -> c <> 37 -> c <> 63 ->
  requestListener unicodeLower d folder (a ++ 37 :: h :: l :: b)
  = requestListener unicodeLower d folder (a ++ c :: b).
Proof.
  intros Ha Hb Hx Hc H37 H63.
  apply literalUrl_inv in Ha as [Ha37 Ha63]. apply literalUrl_inv in Hb as [Hb37 Hb63].
  assert (Hhl : h <> 63 /\ l <> 63).
  { unfold hexByte in Hx.
    destruct (hexval h) eqn:Eh; [|discriminate].
    destruct (hexval l) eqn:El; [|discriminate].
    apply hexval_digit in Eh, El. tauto. }
  destruct Hhl as [Hh Hl].
  assert (Hne : forall x y : N, x <> y -> negb (x =? y) = true)
    by (intros x y Hxy; apply negb_true_iff; now apply N.eqb_neq).
  assert (Hq1 : forallb (fun c => negb (c =? 63)) (a ++ 37 :: h :: l :: b) = true).
  { rewrite forallb_app, Ha63. cbn [forallb andb].
    rewrite (Hne h 63 Hh), (Hne l 63 Hl), Hb63. reflexivity. }
  assert (Hq2 : forallb (fun c => negb (c =? 63)) (a ++ c :: b) = true).
  { rewrite forallb_app, Ha63. cbn [forallb andb]. now rewrite (Hne c 63 H63), Hb63. }
  assert (Hd1 : decodeURIComponent (a ++ 37 :: h :: l :: b) = Some (a ++ c :: b)).
  { rewrite (decodeURIComponent_literal_prefix a _ Ha37).
    cbn [decodeURIComponent]. rewrite N.eqb_refl. cbn [negb]. rewrite Hx.
    unfold leadingOnes. apply N.ltb_lt in Hc. rewrite Hc.
    now rewrite (decodeURIComponent_plain b Hb37). }
  assert (Hd2 : decodeURIComponent (a ++ c :: b) = Some (a ++ c :: b)).
  { apply decodeURIComponent_plain. rewrite forallb_app, Ha37. cbn [forallb andb].
    now rewrite (Hne c 37 H37), Hb37. }
  unfold requestListener.
  rewrite (split_whole 63 _ Hq1), (split_whole 63 _ Hq2). cbn [hd].
  now rewrite Hd1, Hd2.
Qed.

Lemma escaped_character_is_the_character_witness :
  literalUrl (str "/a") = true /\ literalUrl (str "b.html") = true
  /\ hexByte 50 48 = Some 32
  /\ requestListener Sample.unicodeLower Sample.disk Sample.folder (str "/a%20b.html")
     = requestListener Sample.unicodeLower Sample.disk Sample.folder (str "/a b.html").
Proof.
  assert (H1 : literalUrl (str "/a") = true) by reflexivity.
  assert (H2 : literalUrl (str "b.html") = true) by reflexivity.
  assert (H3 : hexByte 50 48 = Some 32) by reflexivity.
  assert (H4 : 32 < 128) by reflexivity.
  assert (H5 : 32 <> 37) by discriminate.
  assert (H6 : 32 <> 63) by discriminate.
  repeat (split; [assumption|]).
  exact (escaped_character_is_the_character Sample.unicodeLower Sample.disk Sample.folder
           _ _ _ _ _ H1 H2 H3 H4 H5 H6).
Defined.

(** ** More on the orchestrator *)

(** *** The listeners are passive *)

Lemma withoutLogs_app t u : withoutLogs (t ++ u) = withoutLogs t ++ withoutLogs u.
Proof. apply filter_app. Qed.

Lemma withoutLogs_forward evs : withoutLogs (map forward evs) = [].
Proof.
  induction evs as [|ev evs IH]; [reflexivity|].
  destruct ev as [type text| |]; cbn [map forward]; try exact IH.
  destruct (eqb type (str "error")); [exact IH|].
  destruct (eqb type (str "warn")); exact IH.
Qed.

Lemma sameButLogs_refl {A} (m : M A) : sameButLogs m m.
Proof. now split. Qed.

Lemma sameButLogs_bind {A B} (m m' : M A) (k k' : A -> M B) :
  sameButLogs m m' -> (forall a, sameButLogs (k a) (k' a)) ->
  sameButLogs (bind m k) (bind m' k').
Proof.
  destruct m as [t c], m' as [t' c']. intros [Hc Ht] Hk.
  cbn [fst snd] in Hc, Ht. subst c'.
  destruct c as [a|e|n]; [|now split..].
  specialize (Hk a). unfold sameButLogs in *. cbn [bind].
  destruct (k a) as [u d], (k' a) as [u' d']. cbn [fst snd] in *.
  destruct Hk as [-> Hu]. split; [reflexivity|].
  now rewrite !withoutLogs_app, Ht, Hu.
Qed.

Lemma sameButLogs_tryCatch {A} (m m' : M A) (h h' : error -> M A) :
  sameButLogs m m' -> (forall e, sameButLogs (h e) (h' e)) ->
  sameButLogs (tryCatch m h) (tryCatch m' h').
Proof.
  destruct m as [t c], m' as [t' c']. intros [Hc Ht] Hh.
  cbn [fst snd] in Hc, Ht. subst c'.
  destruct c as [a|e|n]; [now split | | now split].
  specialize (Hh e). unfold sameButLogs in *. cbn [tryCatch].
  destruct (h e) as [u d], (h' e) as [u' d']. cbn [fst snd] in *.
  destruct Hh as [-> Hu]. split; [reflexivity|].
  now rewrite !withoutLogs_app, Ht, Hu.
Qed.

Lemma sameButLogs_listening ev w s e :
  sameButLogs (listening (withEvents ev w) s e) (listening w s e).
Proof.
  split; [reflexivity|]. cbn [listening fst].
  change (?x :: map forward ?l) with ([x] ++ map forward l).
  now rewrite !withoutLogs_app, !withoutLogs_forward.
Qed.

(** Walks through two copies of a block of the script that differ in the
    page events only. *)
Ltac same_but_logs :=
  repeat first
    [ apply sameButLogs_bind; [|intros; cbv beta zeta]
    | apply sameButLogs_tryCatch; [|intros; cbv beta zeta]
    | apply sameButLogs_listening
    | apply sameButLogs_refl
    | match goal with
      | |- sameButLogs (if ?b then _ else _) _ => destruct b
      end ].

Lemma main_sameButLogs ev w : sameButLogs (main (withEvents ev w)) (main w).
Proof.
  unfold main, renderWait, decide, capture, evaluate, waitForFunction, pdf,
    awaitPage, delay.
  same_but_logs.
Qed.

Lemma existsb_withoutLogs (p : effect -> bool) t :
  (forall args, p (ConsoleLog args) = false) ->
  existsb p (withoutLogs t) = existsb p t.
Proof.
  intros Hp. unfold withoutLogs. induction t as [|e t IH]; [reflexivity|].
  destruct e; simpl; rewrite ?Hp, ?IH; reflexivity.
Qed.

Lemma filesWritten_withoutLogs t : filesWritten (withoutLogs t) = filesWritten t.
Proof.
  unfold withoutLogs. induction t as [|e t IH]; [reflexivity|].
  destruct e; simpl; rewrite ?IH; reflexivity.
Qed.

(** The summary of a run does not look at its [console.log] lines. *)
Lemma digestOf_withoutLogs o o' :
  exitStatus o = exitStatus o' ->
  withoutLogs (trace o) = withoutLogs (trace o') ->
  digestOf o = digestOf o'.
Proof.
  intros Hs Ht. unfold digestOf. rewrite Hs.
  rewrite <- (filesWritten_withoutLogs (trace o)),
          <- (existsb_withoutLogs isLaunch (trace o)),
          <- (existsb_withoutLogs isEvaluate (trace o)),
          <- (existsb_withoutLogs isPdf (trace o)),
          <- (existsb_withoutLogs isBrowserClose (trace o)),
          <- (existsb_withoutLogs isServerClose (trace o)),
          <- (existsb_withoutLogs isConsoleError (trace o)) by reflexivity.
  rewrite Ht.
  rewrite filesWritten_withoutLogs, !existsb_withoutLogs by reflexivity.
  reflexivity.
Qed.

Lemma run_sameButLogs ev w :
  exitStatus (run (withEvents ev w)) = exitStatus (run w)
  /\ withoutLogs (trace (run (withEvents ev w))) = withoutLogs (trace (run w)).
Proof.
  destruct (main_sameButLogs ev w) as [Hc Ht]. unfold run.
  destruct (main (withEvents ev w)) as [t c], (main w) as [t' c'].
  cbn [fst snd] in Hc, Ht. subst c'.
  destruct c as [[]|e|n]; cbn [atExit trace exitStatus]; split; try reflexivity;
    try assumption.
  now rewrite !withoutLogs_app, Ht.
Qed.

(** The summary of a run without page events, path by path. *)
Lemma silent_digest w : digestOf (run (withEvents (fun _ => []) w)) = verdict w.
Proof.
  unfold run, main, renderWait, decide, capture, verdict, timedOutFlag, renderPolls.
  blocks.
  change (rejects (withEvents (fun _ => []) w)) with (rejects w).
  change (documentAtEvaluate (withEvents (fun _ => []) w)) with (documentAtEvaluate w).
  change (poll (withEvents (fun _ => []) w)) with (poll w).
  generalize (poll w cardsRendered 0 (N.to_nat (45000 / 500))). intros polled.
  destruct (rejects w AtListen) as [e|]; [path_done|].
  destruct (rejects w AtLaunch) as [e|]; [path_done|].
  destruct (rejects w AtNewPage) as [e|]; [path_done|].
  destruct (rejects w AtSetViewport) as [e|]; [path_done|].
  destruct (rejects w AtEvaluate) as [e|];
    [destruct (rejects w AtGoto), (rejects w AtWait), polled; path_done|].
  destruct (diagnosticsOf (documentAtEvaluate w)) as [[t n pc lt st bs]|];
    [|destruct (rejects w AtGoto), (rejects w AtWait), polled; path_done].
  destruct (rejects w AtGoto), (rejects w AtWait), polled, n,
    (rejects w AtPdf), (rejects w AtClose); path_done.
Qed.

(** The summary of every run, by the outcomes of its awaited calls. *)
Lemma run_digest w : digestOf (run w) = verdict w.
Proof.
  rewrite <- silent_digest. symmetry.
  apply digestOf_withoutLogs; apply run_sameButLogs.
Qed.

(** The fields of the summary, on the run itself. *)
Lemma run_summary w :
  exitStatus (run w) = exited (verdict w)
  /\ filesWritten (trace (run w)) = files (verdict w)
  /\ existsb isLaunch (trace (run w)) = launched (verdict w)
  /\ existsb isEvaluate (trace (run w)) = evaluated (verdict w)
  /\ existsb isPdf (trace (run w)) = captured (verdict w)
  /\ existsb isBrowserClose (trace (run w)) = browserClosed (verdict w)
  /\ existsb isServerClose (trace (run w)) = serverClosed (verdict w)
  /\ existsb isConsoleError (trace (run w)) = complained (verdict w).
Proof. rewrite <- run_digest. repeat split. Qed.


(** X7.  A run never ends with an exit status other than 0 or 1. *)
Theorem exit_status_is_0_or_1 w : exitStatus (run w) = 0 \/ exitStatus (run w) = 1.
Proof.
  destruct (run_summary w) as (E & _). rewrite E. clear E.
  assert (H : exited (verdict w) = exited (verdict w)) by reflexivity.
  revert H. generalize (exited (verdict w)) at 1 3 4. intros n H.
  unfold verdict in H. split_verdict; subst n; auto.
Qed.

(** X8.  Exit status 0 is reached on one path only: server, browser and
    page were set up, the render wait did not time out, the snapshot was
    taken and counts a card, the PDF capture and the browser close
    succeeded.  The run then wrote the one output file, closed browser and
    server, and printed nothing on [console.error]. *)
Theorem exit_0_means_success w :
  exitStatus (run w) = 0 ->
  reachesNavigation w /\ timedOutFlag w = false
  /\ (exists diagnostics, snapshot w diagnostics /\ 0 < cardCount diagnostics)
  /\ rejects w AtPdf = None /\ rejects w AtClose = None
  /\ filesWritten (trace (run w)) = [outputPath w]
  /\ existsb isBrowserClose (trace (run w)) = true
  /\ existsb isServerClose (trace (run w)) = true
  /\ existsb isConsoleError (trace (run w)) = false.
Proof.
  destruct (run_summary w) as (E & F & _ & _ & _ & B & S & C).
  intros H0. rewrite E in H0. rewrite F, B, S, C. clear E F B S C.
  unfold reachesNavigation, snapshot. unfold verdict in *.
  split_verdict; try discriminate H0.
  match goal with
  | H : _ || _ = false |- _ => apply orb_false_iff in H as [Hflag Hcount]
  end.
  apply N.eqb_neq in Hcount.
  repeat split; auto. eexists. repeat split; try reflexivity. lia.
Qed.

Lemma exit_0_means_success_witness :
  exitStatus (run Sample.happy) = 0
  /\ timedOutFlag Sample.happy = false
  /\ filesWritten (trace (run Sample.happy)) = [outputPath Sample.happy]
  /\ existsb isServerClose (trace (run Sample.happy)) = true.
Proof.
  assert (H : exitStatus (run Sample.happy) = 0) by reflexivity.
  destruct (exit_0_means_success Sample.happy H)
    as (_ & Hflag & _ & _ & _ & Hfiles & _ & Hserver & _).
  repeat split; assumption.
Defined.

(** X9.  A run writes no file, or the one output file at the fixed path,
    and the latter only after a render wait that did not time out and a
    snapshot that counts a card. *)
Theorem pdf_only_after_render w :
  filesWritten (trace (run w)) = []
  \/ (filesWritten (trace (run w)) = [outputPath w]
      /\ timedOutFlag w = false
      /\ exists diagnostics, snapshot w diagnostics /\ 0 < cardCount diagnostics).
Proof.
  destruct (run_summary w) as (_ & F & _). rewrite F. clear F.
  assert (H : files (verdict w) = files (verdict w)) by reflexivity.
  revert H. generalize (files (verdict w)) at 1 3 4. intros l H.
  unfold snapshot. unfold verdict in H. split_verdict; subst l; auto; right;
    match goal with
    | H : _ || _ = false |- _ => apply orb_false_iff in H as [Hflag Hcount]
    end;
    apply N.eqb_neq in Hcount;
    (repeat split; auto; eexists; repeat split; try reflexivity; lia).
Qed.


(** X11.  The server is stopped only after the diagnostics were extracted
    and [browser.close] was called and succeeded. *)
Theorem server_stops_after_browser w :
  existsb isServerClose (trace (run w)) = true ->
  existsb isBrowserClose (trace (run w)) = true
  /\ existsb isEvaluate (trace (run w)) = true
  /\ rejects w AtClose = None.
Proof.
  destruct (run_summary w) as (_ & _ & _ & V & _ & B & S & _).
  rewrite V, B, S. clear V B S. intros H.
  unfold verdict in *. split_verdict; try discriminate H; auto.
Qed.

Lemma server_stops_after_browser_witness :
  existsb isServerClose (trace (run Sample.empty)) = true
  /\ existsb isBrowserClose (trace (run Sample.empty)) = true
  /\ rejects Sample.empty AtClose = None.
Proof.
  assert (H : existsb isServerClose (trace (run Sample.empty)) = true) by reflexivity.
  destruct (server_stops_after_browser Sample.empty H) as (Hb & _ & Hc).
  repeat split; assumption.
Defined.



(** X13.  The browser is launched exactly when the server has started. *)
Theorem browser_launched_iff_server_started w :
  existsb isLaunch (trace (run w))
  = match rejects w AtListen with None => true | Some _ => false end.
Proof.
  destruct (run_summary w) as (_ & _ & L & _). rewrite L. clear L.
  assert (H : launched (verdict w) = launched (verdict w)) by reflexivity.
  revert H. generalize (launched (verdict w)) at 1 3. intros b H.
  unfold verdict in H. split_verdict; subst b; reflexivity.
Qed.



Lemma launch_failure_leaves_server_open_witness :
  rejects Sample.noChrome AtListen = None
  /\ rejects Sample.noChrome AtLaunch = Some (Sample.failure "Could not find Chrome")
  /\ existsb isListen (trace (run Sample.noChrome)) = true
  /\ existsb isServerClose (trace (run Sample.noChrome)) = false
  /\ exitStatus (run Sample.noChrome) = 1.
Proof.
  assert (H1 : rejects Sample.noChrome AtListen = None) by reflexivity.
  assert (H2 : rejects Sample.noChrome AtLaunch
               = Some (Sample.failure "Could not find Chrome")) by reflexivity.
  split; [exact H1|]. split; [exact H2|].
  exact (launch_failure_leaves_server_open Sample.noChrome _ H1 H2).
Defined.

(** *** The render wait *)



(** *** The diagnostics block *)

Lemma decide_prints_block w timedOut diagnostics :
  exists post, fst (decide w timedOut diagnostics) = diagnosticsBlock diagnostics ++ post.
Proof.
  unfold decide, diagnosticsBlock. blocks.
  destruct (timedOut || (cardCount diagnostics =? 0)).
  - destruct (rejects w AtClose); compute_M; eexists; reflexivity.
  - destruct (capture w diagnostics) as [t c]. compute_M. eexists. reflexivity.
Qed.

(** X16.  Every run that takes the snapshot prints the diagnostics block,
    with the snapshot's title, counts, status texts and body snippet,
    whether it then fails or captures. *)
Theorem diagnostics_block_printed w diagnostics :
  reachesNavigation w -> snapshot w diagnostics ->
  exists pre post, trace (run w) = pre ++ diagnosticsBlock diagnostics ++ post.
Proof.
  intros (H1 & H2 & H3 & H4) [He Hd].
  destruct (main_setup w H1 H2 H3 H4) as (p1 & Em & _).
  destruct (renderWait_evaluated w diagnostics He Hd) as (p2 & Er & _).
  destruct (decide_prints_block w (timedOutFlag w) diagnostics) as (post & Ep).
  unfold run. rewrite Em, Er. cbn [fst snd]. rewrite Ep.
  destruct (snd (decide w (timedOutFlag w) diagnostics)) as [[]|e|n];
    cbn [atExit trace]; eexists (p1 ++ p2); eexists;
    rewrite <- ?app_assoc; reflexivity.
Qed.

Lemma diagnostics_block_printed_witness :
  reachesNavigation Sample.empty
  /\ exists diagnostics,
       snapshot Sample.empty diagnostics
       /\ exists pre post,
            trace (run Sample.empty) = pre ++ diagnosticsBlock diagnostics ++ post.
Proof.
  assert (Hn : reachesNavigation Sample.empty) by (repeat split; reflexivity).
  assert (Hs : snapshot Sample.empty
                 {| title := str "Expo"; cardCount := 0; pageCount := 0;
                    loadingText := str "Loading...";
                    statusText := str "(no #status element)";
                    bodySnippet := str "<div id='loading'>Loading...</div>" |})
    by (split; reflexivity).
  split; [exact Hn|]. eexists. split; [exact Hs|].
  exact (diagnostics_block_printed Sample.empty _ Hn Hs).
Defined.







(** X18.  The snapshot cannot tell a status element with no text from a
    missing one: both give the placeholder. *)
Theorem empty_element_reported_missing doc :
  diagnosticsOf (withLoading (Some []) doc) = diagnosticsOf (withLoading None doc)
  /\ diagnosticsOf (withStatus (Some []) doc) = diagnosticsOf (withStatus None doc).
Proof.
  unfold diagnosticsOf, withLoading, withStatus. cbn [Dom.body Dom.loading Dom.status].
  destruct (Dom.body doc); split; reflexivity.
Qed.
